(** * Black-Scholes option pricer: a shallow embedding and its properties

    The development embeds the two variants of the pricer,
    [bs_option_pricer.py] (free functions) and [bs_option_pricer_oop.py]
    (the class [BlackScholesModel]), and proves the properties the
    specification states about them.

    Numbers.  The pricing functions use [math.log], [math.sqrt], [math.exp]
    and the normal distribution of [scipy.stats]; Python floats are read as
    real numbers ([R]), so rounding, overflow, [inf] and [nan] are outside
    the model.  [scipy.stats.norm] is not part of the repository: its [cdf]
    and [pdf] are parameters of the pricing functions, and the theorems
    that need a property of them (symmetry, range, sign) assume exactly that
    property; the reference values are computed with the standard normal
    distribution itself.  The input collector only parses decimal text,
    divides by constants and compares with 1, so it is modelled over the
    rationals ([Q]) and runs inside Rocq; the builtins [float] and [str] are
    its parameters.

    Control.  A Python call either returns a value or raises; [result] is
    the corresponding error monad, and a function that falls off its end
    returns [VNone]. *)

From Stdlib Require Import Reals Lra Lia List String Ascii Bool Arith Factorial ZArith QArith Qreals.
Import ListNotations.

(** ** Python values, exceptions and the [math] module *)

Module Py.

(** The exceptions the two files can raise.  [ValueError] carries its
    message because [get_input] prints it. *)
Inductive exn : Type :=
| ValueError (msg : string)
| ZeroDivisionError
| UnboundLocalError (name : string)
| AttributeError (name : string)
| EOFError.

Inductive result (A : Type) : Type :=
| Ok (a : A)
| Raise (e : exn).
Arguments Ok {A} a.
Arguments Raise {A} e.

Definition bind {A B : Type} (c : result A) (k : A -> result B) : result B :=
  match c with
  | Ok a => k a
  | Raise e => Raise e
  end.

(** What a pricing function hands back: a float, or [None] when control
    reaches the end of the function body without a [return]. *)
Inductive value : Type :=
| VFloat (x : R)
| VNone.

(** [x in [a, b, ...]] on strings. *)
Definition str_in (x : string) (l : list string) : bool :=
  existsb (String.eqb x) l.

Definition math_domain_error : exn := ValueError "math domain error".

(** [math.log(x)]: defined for [x > 0] only. *)
Definition math_log (x : R) : result R :=
  if Rle_dec x 0 then Raise math_domain_error else Ok (ln x).

(** [math.sqrt(x)]: defined for [x >= 0] only. *)
Definition math_sqrt (x : R) : result R :=
  if Rlt_dec x 0 then Raise math_domain_error else Ok (sqrt x).

(** [x / y] on floats. *)
Definition truediv (x y : R) : result R :=
  if Req_dec_T y 0 then Raise ZeroDivisionError else Ok (x / y)%R.

(** *** Strings: the [str] methods the input collectors call *)

Definition lower_ascii (c : ascii) : ascii :=
  let n := nat_of_ascii c in
  if andb (Nat.leb 65 n) (Nat.leb n 90) then ascii_of_nat (n + 32) else c.

(** [s.lower()], on ASCII letters. *)
Fixpoint str_lower (s : string) : string :=
  match s with
  | EmptyString => EmptyString
  | String c s' => String (lower_ascii c) (str_lower s')
  end.

(** [s.replace(old, new)] for a one-character [old], the only form used. *)
Fixpoint str_replace (old : ascii) (new : string) (s : string) : string :=
  match s with
  | EmptyString => EmptyString
  | String c s' =>
      if Ascii.eqb c old then new ++ str_replace old new s'
      else String c (str_replace old new s')
  end.

(** [old in s] for a one-character [old]. *)
Fixpoint str_contains (old : ascii) (s : string) : bool :=
  match s with
  | EmptyString => false
  | String c s' => Ascii.eqb c old || str_contains old s'
  end.

(** *** Console

    [input] and [print] act on the text still to be typed and on what has
    been written so far. *)
Record world : Type := World { stdin : list string; stdout : list string }.

Definition io (A : Type) : Type := world -> result A * world.

Definition io_ret {A : Type} (a : A) : io A := fun w => (Ok a, w).

Definition io_raise {A : Type} (e : exn) : io A := fun w => (Raise e, w).

Definition io_bind {A B : Type} (c : io A) (k : A -> io B) : io B :=
  fun w =>
    match c w with
    | (Ok a, w') => k a w'
    | (Raise e, w') => (Raise e, w')
    end.

(** A pure computation that may raise, run inside [io]. *)
Definition io_lift {A : Type} (c : result A) : io A := fun w => (c, w).

Definition write (s : string) (w : world) : world :=
  World (stdin w) (stdout w ++ [s]).

(** [input(prompt)]: shows the prompt and takes the next line, [EOFError]
    when there is none. *)
Definition input (prompt : string) : io string :=
  fun w =>
    let w' := write prompt w in
    match stdin w' with
    | [] => (Raise EOFError, w')
    | line :: rest => (Ok line, World rest (stdout w'))
    end.

(** [print(s)] *)
Definition print (s : string) : io unit :=
  fun w => (Ok tt, write s w).

(** [c] puts no text back on the input. *)
Definition consumes {A : Type} (c : io A) : Prop :=
  forall w res w', c w = (res, w') -> (List.length (stdin w') <= List.length (stdin w))%nat.

(** The rate and the volatility are held in a variable that is a [str] at
    first and a [float] later on. *)
Inductive pyobj : Type :=
| PStr (s : string)
| PFloat (q : Q).

End Py.

Import Py.

Declare Scope py_scope.
Delimit Scope py_scope with py.
Notation "x <- c ;; k" := (bind c (fun x => k))
  (at level 61, c at next level, right associativity) : py_scope.
Infix "/." := truediv (at level 40, left associativity) : py_scope.

Declare Scope io_scope.
Delimit Scope io_scope with io.
Notation "x <- c ;; k" := (io_bind c (fun x => k))
  (at level 61, c at next level, right associativity) : io_scope.
Notation "c ;; k" := (io_bind c (fun _ => k))
  (at level 61, right associativity) : io_scope.

(** ** [bs_option_pricer.py]: the free functions *)

Module bs_option_pricer.

Section Engine.

Local Open Scope R_scope.
Local Open Scope py_scope.

(** [scipy.stats.norm.cdf] and [scipy.stats.norm.pdf]. *)
Variable norm_cdf : R -> R.
Variable norm_pdf : R -> R.

(** The expression
    [(math.log(S/K) + (r + (sigma**2)/2)*t)/(sigma*math.sqrt(t))],
    which opens [bsmodel] and each of the five Greeks, evaluated left to
    right. *)
Definition d1_expr (S K r t sigma : R) : result R :=
  q <- S /. K ;;
  l <- math_log q ;;
  st <- math_sqrt t ;;
  (l + (r + (sigma ^ 2) / 2) * t) /. (sigma * st).

(** [d1 - sigma*math.sqrt(t)] *)
Definition d2_expr (d1 t sigma : R) : result R :=
  st <- math_sqrt t ;;
  Ok (d1 - sigma * st).

Definition bsmodel (option_type : string) (S K r t sigma : R) : result value :=
  d1 <- d1_expr S K r t sigma ;;
  d2 <- d2_expr d1 t sigma ;;
  let N_d1 := norm_cdf d1 in
  let N_d2 := norm_cdf d2 in
  let N_neg_d1 := norm_cdf (- d1) in
  let N_neg_d2 := norm_cdf (- d2) in
  if str_in option_type ["c"; "call"]%string then
    let C := N_d1 * S - N_d2 * K * exp (- r * t) in
    Ok (VFloat C)
  else if str_in option_type ["p"; "put"]%string then
    let P := exp (- r * t) * K * N_neg_d2 - (S * N_neg_d1) in
    Ok (VFloat P)
  else Ok VNone.

Definition delta (option_type : string) (S K r t sigma : R) : result value :=
  d1 <- d1_expr S K r t sigma ;;
  if str_in option_type ["c"; "call"]%string then
    let delta_value := norm_cdf d1 in
    Ok (VFloat delta_value)
  else if str_in option_type ["p"; "put"]%string then
    let delta_value := - norm_cdf (- d1) in
    Ok (VFloat delta_value)
  else Ok VNone.

Definition gamma (S K r t sigma : R) : result R :=
  d1 <- d1_expr S K r t sigma ;;
  let N_d1 := norm_pdf d1 in
  st <- math_sqrt t ;;
  gamma_value <- N_d1 /. (S * sigma * st) ;;
  Ok gamma_value.

Definition theta (option_type : string) (S K r t sigma : R) : result value :=
  d1 <- d1_expr S K r t sigma ;;
  d2 <- d2_expr d1 t sigma ;;
  let N_d1 := norm_pdf d1 in
  let N_d2 := norm_cdf d2 in
  let N_neg_d2 := norm_cdf (- d2) in
  if str_in option_type ["c"; "call"]%string then
    st <- math_sqrt t ;;
    decay <- (- S * N_d1 * sigma) /. (2 * st) ;;
    let theta_value := decay - r * K * exp (- r * t) * N_d2 in
    Ok (VFloat (theta_value / 365))
  else if str_in option_type ["p"; "put"]%string then
    st <- math_sqrt t ;;
    decay <- (- S * N_d1 * sigma) /. (2 * st) ;;
    let theta_value := decay + r * K * exp (- r * t) * N_neg_d2 in
    Ok (VFloat (theta_value / 365))
  else Ok VNone.

Definition vega (S K r t sigma : R) : result R :=
  d1 <- d1_expr S K r t sigma ;;
  let N_d1 := norm_pdf d1 in
  st <- math_sqrt t ;;
  let vega_value := S * st * N_d1 in
  Ok (vega_value / 100).

Definition rho (option_type : string) (S K r t sigma : R) : result value :=
  d1 <- d1_expr S K r t sigma ;;
  d2 <- d2_expr d1 t sigma ;;
  let N_d2 := norm_cdf d2 in
  let N_neg_d2 := norm_cdf (- d2) in
  if str_in option_type ["c"; "call"]%string then
    let rho_value := K * t * exp (- r * t) * N_d2 in
    Ok (VFloat (rho_value / 100))
  else if str_in option_type ["p"; "put"]%string then
    let rho_value := - K * t * exp (- r * t) * N_neg_d2 in
    Ok (VFloat (rho_value / 100))
  else Ok VNone.

End Engine.

Section Input.

Local Open Scope Q_scope.
Local Open Scope io_scope.

(** The builtins [float] (applied to a [str]: the number read, or the
    [ValueError] raised) and [str] (applied to a [float]). *)
Variable py_float : string -> result Q.
Variable py_str : Q -> string.

(** [float(x)] *)
Definition float_ (x : pyobj) : result Q :=
  match x with
  | PStr s => py_float s
  | PFloat q => Ok q
  end.

(** [str(x)] *)
Definition str_ (x : pyobj) : string :=
  match x with
  | PStr s => s
  | PFloat q => py_str q
  end.

(** [x.replace(old, new)]: a method of [str], not of [float]. *)
Definition replace_ (x : pyobj) (old : ascii) (new : string) : result string :=
  match x with
  | PStr s => Ok (str_replace old new s)
  | PFloat _ => Raise (AttributeError "replace")
  end.

Definition inputs : Type := (string * Q * Q * Q * Q * Q)%type.

(** The body of the [try] block of [get_input]. *)
Definition get_input_try : io inputs :=
  line <- input "Option type - type 'c' or 'call' for call option, 'p' or 'put' for put option: " ;;
  let option_type := str_lower line in
  (if negb (str_in option_type ["c"; "call"; "p"; "put"]%string)
   then io_raise (ValueError "Please input 'c' or 'call' for call option, and 'p' or 'put' for put option")
   else io_ret tt) ;;
  line <- input "Current stock price: " ;;
  S <- io_lift (py_float (str_replace "," "." line)) ;;
  line <- input "Strike price: " ;;
  K <- io_lift (py_float (str_replace "," "." line)) ;;
  line <- input "Risk-free interest rate: " ;;
  let r := PStr (str_replace "," "." line) in
  r <- (if str_contains "%" (str_ r)
        then s <- io_lift (replace_ r "%" "") ;;
             x <- io_lift (float_ (PStr s)) ;;
             io_ret (PFloat (x / 100))
        else io_ret r) ;;
  r <- io_lift (float_ r) ;;
  line <- input "Time to maturity (in years): " ;;
  t <- io_lift (py_float (str_replace "," "." line)) ;;
  let t := if Qle_bool t 1 then t else t / 365 in
  line <- input "Volatility of returns of an underlying asset: " ;;
  let sigma := PStr (str_replace "," "." line) in
  sigma <- (if str_contains "%" (str_ sigma)
            then s <- io_lift (replace_ sigma "%" "") ;;
                 x <- io_lift (float_ (PStr s)) ;;
                 io_ret (PFloat (x / 100))
            else io_ret sigma) ;;
  sigma <- io_lift (float_ sigma) ;;
  io_ret (option_type, S, K, r, t, sigma).

(** [while True: try: ... except ValueError as e: print(str(e))].  Every
    turn of the loop starts with an [input], which takes a line or ends the
    loop with [EOFError]; [fuel] counts the turns and [None] stands for a
    loop cut short. *)
Fixpoint get_input_loop (fuel : nat) (w : world) : option (result inputs * world) :=
  match fuel with
  | O => None
  | Datatypes.S fuel' =>
      match get_input_try w with
      | (Ok v, w') => Some (Ok v, w')
      | (Raise (ValueError msg), w') => get_input_loop fuel' (snd (print msg w'))
      | (Raise e, w') => Some (Raise e, w')
      end
  end.

Definition get_input (w : world) : option (result inputs * world) :=
  get_input_loop (Datatypes.S (List.length (stdin w))) w.

End Input.

Section Main.

Local Open Scope string_scope.
Local Open Scope io_scope.

Variable norm_cdf : R -> R.
Variable norm_pdf : R -> R.
Variable py_float : string -> result Q.

(** The text [str] and an f-string write for a float. *)
Variable str_float : R -> string.

(** [f"{x}"] for what a pricing function returned. *)
Definition format_value (v : value) : string :=
  match v with
  | VFloat x => str_float x
  | VNone => "None"
  end.

(** The statements of [main] after [get_input] has returned. *)
Definition main_after (option_type : string) (S K r t sigma : Q) : io unit :=
  let S := Q2R S in
  let K := Q2R K in
  let r := Q2R r in
  let t := Q2R t in
  let sigma := Q2R sigma in
  option_price <- io_lift (bsmodel norm_cdf option_type S K r t sigma) ;;
  delta_value <- io_lift (delta norm_cdf option_type S K r t sigma) ;;
  gamma_value <- io_lift (gamma norm_pdf S K r t sigma) ;;
  theta_value <- io_lift (theta norm_cdf norm_pdf option_type S K r t sigma) ;;
  vega_value <- io_lift (vega norm_pdf S K r t sigma) ;;
  rho_value <- io_lift (rho norm_cdf option_type S K r t sigma) ;;
  (if str_in option_type ["c"; "call"] then
     print ("Call Option Price is " ++ format_value option_price ++ ".")
   else if str_in option_type ["p"; "put"] then
     print ("Put Option Price is " ++ format_value option_price ++ ".")
   else io_ret tt) ;;
  print ("Delta is " ++ format_value delta_value ++ ".") ;;
  print ("Gamma is " ++ str_float gamma_value ++ ".") ;;
  print ("Theta is " ++ format_value theta_value ++ ".") ;;
  print ("Vega is " ++ str_float vega_value ++ ".") ;;
  print ("Rho is " ++ format_value rho_value ++ ".").

Definition main (w : world) : option (result unit * world) :=
  match get_input py_float (fun q => str_float (Q2R q)) w with
  | None => None
  | Some (Ok (option_type, s, k, r, t, v), w') =>
      Some (main_after option_type s k r t v w')
  | Some (Raise e, w') => Some (Raise e, w')
  end.

End Main.

End bs_option_pricer.

(** ** [bs_option_pricer_oop.py]: the class [BlackScholesModel] *)

Module bs_option_pricer_oop.

Record BlackScholesModel : Type := {
  option_type : string;
  S : R;
  K : R;
  r : R;
  t : R;
  sigma : R
}.

Section Engine.

Local Open Scope R_scope.
Local Open Scope py_scope.

Variable norm_cdf : R -> R.
Variable norm_pdf : R -> R.

Definition calculate_d1_d2 (self : BlackScholesModel) : result (R * R) :=
  q <- S self /. K self ;;
  l <- math_log q ;;
  st <- math_sqrt (t self) ;;
  d1 <- (l + (r self + (sigma self ^ 2) / 2) * t self) /. (sigma self * st) ;;
  st <- math_sqrt (t self) ;;
  let d2 := d1 - sigma self * st in
  Ok (d1, d2).

Definition calculate_N_values (d1 d2 : R) : R * R * R * R * R :=
  let N_d1 := norm_cdf d1 in
  let N_d1_gamma_theta_vega := norm_pdf d1 in
  let N_d2 := norm_cdf d2 in
  let N_neg_d1 := norm_cdf (- d1) in
  let N_neg_d2 := norm_cdf (- d2) in
  (N_d1, N_d1_gamma_theta_vega, N_d2, N_neg_d1, N_neg_d2).

Definition calculate_call_price (self : BlackScholesModel) (N_d1 N_d2 : R) : R :=
  N_d1 * S self - N_d2 * K self * exp (- r self * t self).

Definition calculate_put_price (self : BlackScholesModel) (N_neg_d1 N_neg_d2 : R) : R :=
  K self * exp (- r self * t self) * N_neg_d2 - (S self * N_neg_d1).

Definition calculate_delta (self : BlackScholesModel) (N_d1 N_neg_d1 : R) : value :=
  if str_in (option_type self) ["c"; "call"]%string then VFloat N_d1
  else if str_in (option_type self) ["p"; "put"]%string then VFloat (- N_neg_d1)
  else VNone.

Definition calculate_gamma (self : BlackScholesModel) (N_d1_gamma_theta_vega : R)
  : result R :=
  st <- math_sqrt (t self) ;;
  N_d1_gamma_theta_vega /. (S self * sigma self * st).

(** The local [theta] is bound in the two branches only; reading it when
    neither was taken raises [UnboundLocalError]. *)
Definition calculate_theta (self : BlackScholesModel)
    (N_d1_gamma_theta_vega N_d2 N_neg_d2 : R) : result R :=
  theta <- (if str_in (option_type self) ["c"; "call"]%string then
              st <- math_sqrt (t self) ;;
              decay <- (- S self * N_d1_gamma_theta_vega * sigma self) /. (2 * st) ;;
              Ok (Some (decay - r self * K self * exp (- r self * t self) * N_d2))
            else if str_in (option_type self) ["p"; "put"]%string then
              st <- math_sqrt (t self) ;;
              decay <- (- S self * N_d1_gamma_theta_vega * sigma self) /. (2 * st) ;;
              Ok (Some (decay + r self * K self * exp (- r self * t self) * N_neg_d2))
            else Ok None) ;;
  match theta with
  | Some theta => Ok (theta / 365)
  | None => Raise (UnboundLocalError "theta")
  end.

Definition calculate_vega (self : BlackScholesModel) (N_d1_gamma_theta_vega : R)
  : result R :=
  st <- math_sqrt (t self) ;;
  Ok ((S self * st * N_d1_gamma_theta_vega) / 100).

Definition calculate_rho (self : BlackScholesModel) (N_d2 N_neg_d2 : R) : value :=
  if str_in (option_type self) ["c"; "call"]%string then
    VFloat ((K self * t self * exp (- r self * t self) * N_d2) / 100)
  else if str_in (option_type self) ["p"; "put"]%string then
    VFloat ((- K self * t self * exp (- r self * t self) * N_neg_d2) / 100)
  else VNone.

Definition metrics : Type := (R * R * value * R * R * R * value)%type.

Definition calculate_option_metrics (self : BlackScholesModel) : result metrics :=
  d <- calculate_d1_d2 self ;;
  let '(d1, d2) := d in
  let '(N_d1, N_d1_gamma_theta_vega, N_d2, N_neg_d1, N_neg_d2) :=
    calculate_N_values d1 d2 in
  let call_price := calculate_call_price self N_d1 N_d2 in
  let put_price := calculate_put_price self N_neg_d1 N_neg_d2 in
  let delta_value := calculate_delta self N_d1 N_neg_d1 in
  gamma_value <- calculate_gamma self N_d1_gamma_theta_vega ;;
  theta_value <- calculate_theta self N_d1_gamma_theta_vega N_d2 N_neg_d2 ;;
  vega_value <- calculate_vega self N_d1_gamma_theta_vega ;;
  let rho_value := calculate_rho self N_d2 N_neg_d2 in
  Ok (call_price, put_price, delta_value, gamma_value, theta_value, vega_value,
      rho_value).

End Engine.

Section Input.

Local Open Scope Q_scope.
Local Open Scope io_scope.

Variable py_float : string -> result Q.
Variable py_str : Q -> string.

Definition float_ (x : pyobj) : result Q :=
  match x with
  | PStr s => py_float s
  | PFloat q => Ok q
  end.

Definition str_ (x : pyobj) : string :=
  match x with
  | PStr s => s
  | PFloat q => py_str q
  end.

Definition replace_ (x : pyobj) (old : ascii) (new : string) : result string :=
  match x with
  | PStr s => Ok (str_replace old new s)
  | PFloat _ => Raise (AttributeError "replace")
  end.

Definition inputs : Type := (string * Q * Q * Q * Q * Q)%type.

(** The body of the [try] block of [get_input]: here [float] is applied
    to the rate and to the volatility before the test for a percent sign. *)
Definition get_input_try : io inputs :=
  line <- input "Option type - type 'c' or 'call' for call option, 'p' or 'put' for put option: " ;;
  let option_type := str_lower line in
  (if negb (str_in option_type ["c"; "call"; "p"; "put"]%string)
   then io_raise (ValueError "Please input 'c' or 'call' for call option, and 'p' or 'put' for put option")
   else io_ret tt) ;;
  line <- input "Current stock price: " ;;
  S <- io_lift (py_float (str_replace "," "." line)) ;;
  line <- input "Strike price: " ;;
  K <- io_lift (py_float (str_replace "," "." line)) ;;
  line <- input "Risk-free interest rate: " ;;
  let r := PStr (str_replace "," "." line) in
  x <- io_lift (float_ r) ;;
  let r := PFloat x in
  r <- (if str_contains "%" (str_ r)
        then s <- io_lift (replace_ r "%" "") ;;
             x <- io_lift (float_ (PStr s)) ;;
             io_ret (x / 100)
        else io_ret x) ;;
  line <- input "Time to maturity (in years): " ;;
  t <- io_lift (py_float (str_replace "," "." line)) ;;
  let t := if Qle_bool t 1 then t else t / 365 in
  line <- input "Volatility of returns of an underlying asset: " ;;
  let sigma := PStr (str_replace "," "." line) in
  x <- io_lift (float_ sigma) ;;
  let sigma := PFloat x in
  sigma <- (if str_contains "%" (str_ sigma)
            then s <- io_lift (replace_ sigma "%" "") ;;
                 x <- io_lift (float_ (PStr s)) ;;
                 io_ret (x / 100)
            else io_ret x) ;;
  io_ret (option_type, S, K, r, t, sigma).

Fixpoint get_input_loop (fuel : nat) (w : world) : option (result inputs * world) :=
  match fuel with
  | O => None
  | Datatypes.S fuel' =>
      match get_input_try w with
      | (Ok v, w') => Some (Ok v, w')
      | (Raise (ValueError msg), w') => get_input_loop fuel' (snd (print msg w'))
      | (Raise e, w') => Some (Raise e, w')
      end
  end.

Definition get_input (w : world) : option (result inputs * world) :=
  get_input_loop (Datatypes.S (List.length (stdin w))) w.

End Input.

Section Main.

Local Open Scope string_scope.
Local Open Scope io_scope.

Variable norm_cdf : R -> R.
Variable norm_pdf : R -> R.
Variable py_float : string -> result Q.
Variable str_float : R -> string.

Definition format_value (v : value) : string :=
  match v with
  | VFloat x => str_float x
  | VNone => "None"
  end.

Definition main_after (option_type : string) (S K r t sigma : Q) : io unit :=
  let option_model :=
    Build_BlackScholesModel option_type (Q2R S) (Q2R K) (Q2R r) (Q2R t) (Q2R sigma) in
  m <- io_lift (calculate_option_metrics norm_cdf norm_pdf option_model) ;;
  let '(call_price, put_price, delta_value, gamma_value, theta_value, vega_value,
        rho_value) := m in
  (if str_in option_type ["c"; "call"] then
     print ("Call Option Price is " ++ str_float call_price ++ ".")
   else if str_in option_type ["p"; "put"] then
     print ("Put Option Price is " ++ str_float put_price ++ ".")
   else io_ret tt) ;;
  print ("Delta is " ++ format_value delta_value ++ ".") ;;
  print ("Gamma is " ++ str_float gamma_value ++ ".") ;;
  print ("Theta is " ++ str_float theta_value ++ ".") ;;
  print ("Vega is " ++ str_float vega_value ++ ".") ;;
  print ("Rho is " ++ format_value rho_value ++ ".").

Definition main (w : world) : option (result unit * world) :=
  match get_input py_float (fun q => str_float (Q2R q)) w with
  | None => None
  | Some (Ok (option_type, s, k, r, t, v), w') =>
      Some (main_after option_type s k r t v w')
  | Some (Raise e, w') => Some (Raise e, w')
  end.

End Main.

End bs_option_pricer_oop.

(** ** The specification's formulas

    Written from the words of the specification, to be compared with what
    the code computes. *)

Module Spec.

Local Open Scope R_scope.

Inductive kind : Type := Call | Put.

(** The spellings of a kind that the input collector lets through. *)
Definition spellings (k : kind) : list string :=
  match k with
  | Call => ["c"; "call"]%string
  | Put => ["p"; "put"]%string
  end.

Record OptionContract : Type := {
  spot : R;
  strike : R;
  rate : R;
  maturity : R;
  volatility : R
}.

(** Invariant of the data model: spot, strike, maturity and volatility are
    positive, the rate is any real. *)
Definition valid (c : OptionContract) : Prop :=
  0 < spot c /\ 0 < strike c /\ 0 < maturity c /\ 0 < volatility c.

Definition d1 (c : OptionContract) : R :=
  (ln (spot c / strike c) + (rate c + (volatility c)² / 2) * maturity c)
  / (volatility c * sqrt (maturity c)).

Definition d2 (c : OptionContract) : R :=
  d1 c - volatility c * sqrt (maturity c).

Section Formulas.

Variable Phi : R -> R.
Variable phi : R -> R.

Definition price (k : kind) (c : OptionContract) : R :=
  match k with
  | Call => Phi (d1 c) * spot c - Phi (d2 c) * strike c * exp (- (rate c * maturity c))
  | Put => strike c * exp (- (rate c * maturity c)) * Phi (- d2 c) - spot c * Phi (- d1 c)
  end.

Definition discounted_strike (c : OptionContract) : R :=
  strike c * exp (- (rate c * maturity c)).

End Formulas.

End Spec.

(** ** Instances of the parameters

    The theorems below hold for every [norm_cdf], [norm_pdf], [float] and
    [str] with the properties they assume.  The definitions here apply the
    pricer and the input collector to concrete contracts and concrete text:
    the standard normal density and distribution function, which are what
    [norm.pdf] and [norm.cdf] compute; the logistic distribution function,
    whose range is elementary; and [float] on plain decimal literals. *)

Module Instances.

(** The density of the standard normal distribution,
    exp(-x^2/2) / sqrt(2*pi). *)
Definition gauss_pdf (x : R) : R := (exp (- (x * x) / 2) / sqrt (2 * PI))%R.

Definition gauss_pdf_integrable (a b : R) : Riemann_integrable gauss_pdf a b.
Proof.
  assert (C : continuity gauss_pdf) by (unfold gauss_pdf; reg).
  destruct (Rle_dec a b) as [Hab | Hab].
  - apply continuity_implies_RiemannInt; [assumption |].
    intros x _. apply C.
  - apply RiemannInt_P1. apply continuity_implies_RiemannInt; [lra |].
    intros x _. apply C.
Defined.

(** The distribution function of the standard normal distribution: one
    half plus the integral of the density from 0 to x. *)
Definition std_normal_cdf (x : R) : R :=
  (1 / 2 + RiemannInt (gauss_pdf_integrable 0 x))%R.


Definition digit_of (c : ascii) : option Z :=
  let n := nat_of_ascii c in
  if andb (Nat.leb 48 n) (Nat.leb n 57) then Some (Z.of_nat (n - 48)) else None.

(** Digits with at most one point: the numerator read so far, the power
    of ten under it, whether the point and whether a digit was seen. *)
Fixpoint scan_decimal (s : string) (m : Z) (d : positive) (dot any : bool)
  : option Q :=
  match s with
  | EmptyString => if any then Some (m # d) else None
  | String c s' =>
      if Ascii.eqb c "." then
        if dot then None else scan_decimal s' m d true any
      else
        match digit_of c with
        | Some k => scan_decimal s' (10 * m + k) (if dot then 10 * d else d)%positive dot true
        | None => None
        end
  end.

Definition read_decimal (s : string) : option Q :=
  match s with
  | String "-" s' => option_map Qopp (scan_decimal s' 0 1 false false)
  | String "+" s' => scan_decimal s' 0 1 false false
  | _ => scan_decimal s 0 1 false false
  end.

(** [float] on plain decimal literals: an optional sign, digits, at most
    one point. *)
Definition decimal_float (s : string) : result Q :=
  match read_decimal s with
  | Some q => Ok q
  | None => Raise (ValueError ("could not convert string to float: '" ++ s ++ "'"))
  end.

(** The contract of the specification's reference values:
    S = 100, K = 100, r = 0.05, t = 1, sigma = 0.2. *)
Definition reference_contract : Spec.OptionContract :=
  {| Spec.spot := 100; Spec.strike := 100; Spec.rate := 5 / 100;
     Spec.maturity := 1; Spec.volatility := 2 / 10 |}%R.

End Instances.

(** ** Partial sums

    The terms of the series of exp(-y), and the polynomials that enclose
    the normal density and its integral. *)

Module Series.

Local Open Scope R_scope.

Definition exp_term (y : R) (i : nat) : R := y ^ i / INR (fact i).

Definition cdf_coef (i : nat) : R :=
  (-1) ^ i / (2 ^ i * INR (fact i) * INR (2 * i + 1)).

Definition cdf_num (n : nat) (x : R) : R :=
  sum_f_R0 (fun i => cdf_coef i * x ^ (2 * i + 1)) n.

Definition cdf_poly (n : nat) (x : R) : R := cdf_num n x / sqrt (2 * PI).

Definition pdf_poly (n : nat) (x : R) : R :=
  sum_f_R0 (tg_alt (exp_term (x * x / 2))) n / sqrt (2 * PI).

End Series.

(** ** The six operations taken together *)

Module Engine.

Section Outcomes.

Variable norm_cdf : R -> R.
Variable norm_pdf : R -> R.
Variable option_type : string.
Variables S K r t sigma : R.



(** The four operations that branch on the kind return [None]. *)
Definition kind_operations_return_None : Prop :=
  bs_option_pricer.bsmodel norm_cdf option_type S K r t sigma = Ok VNone /\
  bs_option_pricer.delta norm_cdf option_type S K r t sigma = Ok VNone /\
  bs_option_pricer.theta norm_cdf norm_pdf option_type S K r t sigma = Ok VNone /\
  bs_option_pricer.rho norm_cdf option_type S K r t sigma = Ok VNone.

End Outcomes.

End Engine.

(** ** Notions used to describe the input collectors and [main] *)

Module Reading.

Local Open Scope Q_scope.

(** The number a rate or volatility text stands for in
    [bs_option_pricer.py]: with a percent sign, what [float] makes of the
    text without it, divided by 100. *)
Definition percent_reading (py_float : string -> result Q) (text : string) (x : Q)
  : Prop :=
  if str_contains "%" text
  then exists y, py_float (str_replace "%" "" text) = Ok y /\ x = y / 100
  else py_float text = Ok x.

(** [c] only takes lines from the front of the input. *)
Definition reads {A : Type} (c : io A) : Prop :=
  forall w res w', c w = (res, w') -> exists taken, stdin w = taken ++ stdin w'.



(** A rendering of floats that writes the same mark for each of them: the
    theorems on [main] hold whatever [str] writes, and this one lets them
    be applied to a concrete console. *)
Definition float_mark (x : R) : string := "<float>".

End Reading.

(** ** Properties of the [math] operations *)

Local Open Scope R_scope.

Lemma truediv_ok (x y : R) : y <> 0 -> truediv x y = Ok (x / y).
Proof.
  intros Hy. unfold truediv. destruct (Req_dec_T y 0) as [E | _]; [contradiction | reflexivity].
Qed.


Lemma math_log_ok (x : R) : 0 < x -> math_log x = Ok (ln x).
Proof.
  intros Hx. unfold math_log. destruct (Rle_dec x 0) as [L | _]; [lra | reflexivity].
Qed.

Lemma math_log_domain (x : R) : x <= 0 -> math_log x = Raise math_domain_error.
Proof.
  intros Hx. unfold math_log. destruct (Rle_dec x 0) as [_ | N]; [reflexivity | contradiction].
Qed.

Lemma math_sqrt_ok (x : R) : 0 <= x -> math_sqrt x = Ok (sqrt x).
Proof.
  intros Hx. unfold math_sqrt. destruct (Rlt_dec x 0) as [L | _]; [lra | reflexivity].
Qed.



(** ** The intermediate terms on a valid contract *)

Section ValidContract.

Variable c : Spec.OptionContract.
Hypothesis c_valid : Spec.valid c.

Let S := Spec.spot c.
Let K := Spec.strike c.
Let r := Spec.rate c.
Let t := Spec.maturity c.
Let sigma := Spec.volatility c.

Lemma valid_quotient_pos : 0 < S / K.
Proof.
  unfold S, K, r, t, sigma in *.
  destruct c_valid as (HS & HK & _). apply Rdiv_lt_0_compat; assumption.
Qed.

Lemma valid_sqrt_pos : 0 < sqrt t.
Proof.
  unfold S, K, r, t, sigma in *.
  destruct c_valid as (_ & _ & Ht & _). apply sqrt_lt_R0; assumption.
Qed.

Lemma valid_denominator_pos : 0 < sigma * sqrt t.
Proof.
  pose proof valid_sqrt_pos as Hst. unfold S, K, r, t, sigma in *.
  destruct c_valid as (_ & _ & _ & Hs). apply Rmult_lt_0_compat; assumption.
Qed.

Lemma d1_expr_valid :
  bs_option_pricer.d1_expr S K r t sigma = Ok (Spec.d1 c).
Proof.
  pose proof valid_quotient_pos as Hq. pose proof valid_sqrt_pos as Hst.
  pose proof valid_denominator_pos as Hd.
  unfold S, K, r, t, sigma in *.
  destruct c_valid as (HS & HK & Ht & Hs).
  unfold bs_option_pricer.d1_expr.
  rewrite truediv_ok by lra. simpl.
  rewrite math_log_ok by assumption. simpl.
  rewrite math_sqrt_ok by lra. simpl.
  rewrite truediv_ok by lra.
  unfold Spec.d1. rewrite Rsqr_pow2. reflexivity.
Qed.

Lemma d2_expr_valid :
  bs_option_pricer.d2_expr (Spec.d1 c) t sigma = Ok (Spec.d2 c).
Proof.
  unfold S, K, r, t, sigma in *.
  destruct c_valid as (_ & _ & Ht & _).
  unfold bs_option_pricer.d2_expr.
  rewrite math_sqrt_ok by lra. reflexivity.
Qed.

Lemma calculate_d1_d2_valid (ot : string) :
  bs_option_pricer_oop.calculate_d1_d2
    (bs_option_pricer_oop.Build_BlackScholesModel ot S K r t sigma)
  = Ok (Spec.d1 c, Spec.d2 c).
Proof.
  pose proof valid_quotient_pos as Hq. pose proof valid_sqrt_pos as Hst.
  pose proof valid_denominator_pos as Hd.
  unfold S, K, r, t, sigma in *.
  destruct c_valid as (HS & HK & Ht & Hs).
  unfold bs_option_pricer_oop.calculate_d1_d2. simpl.
  rewrite truediv_ok by lra. simpl.
  rewrite math_log_ok by assumption. simpl.
  rewrite math_sqrt_ok by lra. simpl.
  rewrite truediv_ok by lra. simpl.
  unfold Spec.d2, Spec.d1. rewrite Rsqr_pow2. reflexivity.
Qed.

End ValidContract.

(** ** What the operations return on a valid contract *)

Section Pricing.

Variable norm_cdf : R -> R.
Variable norm_pdf : R -> R.

Variable c : Spec.OptionContract.
Hypothesis c_valid : Spec.valid c.

Let S := Spec.spot c.
Let K := Spec.strike c.
Let r := Spec.rate c.
Let t := Spec.maturity c.
Let sigma := Spec.volatility c.
Let d1 := Spec.d1 c.
Let d2 := Spec.d2 c.

Lemma bsmodel_valid (ot : string) :
  bs_option_pricer.bsmodel norm_cdf ot S K r t sigma =
  if str_in ot ["c"; "call"]%string then
    Ok (VFloat (norm_cdf d1 * S - norm_cdf d2 * K * exp (- r * t)))
  else if str_in ot ["p"; "put"]%string then
    Ok (VFloat (exp (- r * t) * K * norm_cdf (- d2) - S * norm_cdf (- d1)))
  else Ok VNone.
Proof.
  unfold bs_option_pricer.bsmodel, S, K, r, t, sigma.
  rewrite (d1_expr_valid c c_valid). simpl.
  rewrite (d2_expr_valid c c_valid). reflexivity.
Qed.

Lemma delta_valid (ot : string) :
  bs_option_pricer.delta norm_cdf ot S K r t sigma =
  if str_in ot ["c"; "call"]%string then Ok (VFloat (norm_cdf d1))
  else if str_in ot ["p"; "put"]%string then Ok (VFloat (- norm_cdf (- d1)))
  else Ok VNone.
Proof.
  unfold bs_option_pricer.delta, S, K, r, t, sigma.
  rewrite (d1_expr_valid c c_valid). reflexivity.
Qed.

Lemma gamma_valid :
  bs_option_pricer.gamma norm_pdf S K r t sigma =
  Ok (norm_pdf d1 / (S * sigma * sqrt t)).
Proof.
  pose proof (valid_sqrt_pos c c_valid) as Hst.
  unfold bs_option_pricer.gamma, S, K, r, t, sigma in *.
  destruct c_valid as (HS & HK & Ht & Hs).
  rewrite (d1_expr_valid c c_valid). simpl.
  rewrite math_sqrt_ok by lra. simpl.
  rewrite truediv_ok; [reflexivity |].
  apply Rgt_not_eq. repeat apply Rmult_lt_0_compat; assumption.
Qed.

Lemma theta_valid (ot : string) :
  bs_option_pricer.theta norm_cdf norm_pdf ot S K r t sigma =
  if str_in ot ["c"; "call"]%string then
    Ok (VFloat ((- S * norm_pdf d1 * sigma / (2 * sqrt t)
                 - r * K * exp (- r * t) * norm_cdf d2) / 365))
  else if str_in ot ["p"; "put"]%string then
    Ok (VFloat ((- S * norm_pdf d1 * sigma / (2 * sqrt t)
                 + r * K * exp (- r * t) * norm_cdf (- d2)) / 365))
  else Ok VNone.
Proof.
  pose proof (valid_sqrt_pos c c_valid) as Hst.
  unfold bs_option_pricer.theta, S, K, r, t, sigma in *.
  destruct c_valid as (HS & HK & Ht & Hs).
  rewrite (d1_expr_valid c c_valid). simpl.
  rewrite (d2_expr_valid c c_valid). simpl.
  rewrite math_sqrt_ok by lra. simpl.
  rewrite truediv_ok by lra. simpl.
  reflexivity.
Qed.

Lemma vega_valid :
  bs_option_pricer.vega norm_pdf S K r t sigma =
  Ok (S * sqrt t * norm_pdf d1 / 100).
Proof.
  unfold bs_option_pricer.vega, S, K, r, t, sigma in *.
  destruct c_valid as (HS & HK & Ht & Hs).
  rewrite (d1_expr_valid c c_valid). simpl.
  rewrite math_sqrt_ok by lra. reflexivity.
Qed.

Lemma rho_valid (ot : string) :
  bs_option_pricer.rho norm_cdf ot S K r t sigma =
  if str_in ot ["c"; "call"]%string then
    Ok (VFloat (K * t * exp (- r * t) * norm_cdf d2 / 100))
  else if str_in ot ["p"; "put"]%string then
    Ok (VFloat (- K * t * exp (- r * t) * norm_cdf (- d2) / 100))
  else Ok VNone.
Proof.
  unfold bs_option_pricer.rho, S, K, r, t, sigma.
  rewrite (d1_expr_valid c c_valid). simpl.
  rewrite (d2_expr_valid c c_valid). reflexivity.
Qed.


End Pricing.

(** ** The instances have the assumed properties *)




Lemma reference_contract_valid : Spec.valid Instances.reference_contract.
Proof. unfold Spec.valid. simpl. lra. Qed.

(** ** The standard normal distribution

    [Instances.std_normal_cdf] is symmetric, and on [-1, 1] the density and
    its integral lie between consecutive partial sums of their alternating
    series. *)

Lemma exp_term_decreasing (y : R) : 0 <= y <= 1 -> Un_decreasing (Series.exp_term y).
Proof.
  intros [Hy0 Hy1] n. unfold Series.exp_term.
  assert (Hf : 0 < INR (fact n)) by apply INR_fact_lt_0.
  assert (Hp : 0 <= y ^ n) by (apply pow_le; assumption).
  rewrite fact_simpl, mult_INR. simpl pow.
  assert (Hn : 1 <= INR (S n)).
  { rewrite S_INR. pose proof (pos_INR n). lra. }
  unfold Rdiv. rewrite Rinv_mult.
  assert (Hi : 0 < / INR (fact n)) by (apply Rinv_0_lt_compat; assumption).
  assert (Hs : 0 < / INR (S n) <= 1).
  { split; [apply Rinv_0_lt_compat; lra |].
    rewrite <- Rinv_1. apply Rinv_le_contravar; lra. }
  assert (Hyp : y * y ^ n <= y ^ n) by nra.
  assert (Hq : / INR (S n) * / INR (fact n) <= / INR (fact n)) by nra.
  assert (0 <= y * y ^ n) by nra.
  nra.
Qed.

Lemma exp_neg_series (y : R) :
  Un_cv (fun N => sum_f_R0 (tg_alt (Series.exp_term y)) N) (exp (- y)).
Proof.
  unfold exp. destruct (exist_exp (- y)) as [l Hl]. simpl.
  unfold exp_in, infinite_sum in Hl. intros eps Heps.
  destruct (Hl eps Heps) as [N HN]. exists N. intros n Hn.
  specialize (HN n Hn).
  replace (sum_f_R0 (tg_alt (Series.exp_term y)) n)
    with (sum_f_R0 (fun i => / INR (fact i) * (- y) ^ i) n); [exact HN |].
  apply sum_eq. intros i _. unfold tg_alt, Series.exp_term.
  replace (- y) with (-1 * y) by ring. rewrite Rpow_mult_distr. field.
  apply INR_fact_neq_0.
Qed.

Lemma exp_neg_bounds (y : R) (N : nat) :
  0 <= y <= 1 ->
  sum_f_R0 (tg_alt (Series.exp_term y)) (S (2 * N)) <= exp (- y)
  <= sum_f_R0 (tg_alt (Series.exp_term y)) (2 * N).
Proof.
  intros Hy. apply alternated_series_ineq.
  - apply exp_term_decreasing; assumption.
  - apply cv_speed_pow_fact.
  - apply exp_neg_series.
Qed.

Lemma gauss_pdf_continuity : continuity Instances.gauss_pdf.
Proof.
  unfold Instances.gauss_pdf. reg.
Qed.

Lemma derivable_pt_lim_ext (f g : R -> R) (x l : R) :
  (forall y, f y = g y) -> derivable_pt_lim f x l -> derivable_pt_lim g x l.
Proof.
  intros E H eps Heps. destruct (H eps Heps) as [d Hd]. exists d.
  intros h Hh0 Hh. rewrite <- !E. apply Hd; assumption.
Qed.

Lemma derivable_pt_lim_monomial (a : R) (k : nat) (x : R) :
  derivable_pt_lim (fun y => a * y ^ (k + 1)) x (a * (INR (k + 1) * x ^ k)).
Proof.
  apply (derivable_pt_lim_ext (mult_real_fct a (fun y => y ^ (k + 1)))); [reflexivity |].
  apply derivable_pt_lim_scal.
  replace k with (pred (k + 1)) at 2 by lia.
  apply derivable_pt_lim_pow.
Qed.

Lemma derivable_pt_lim_cdf_sum (n : nat) (x : R) :
  derivable_pt_lim (Series.cdf_num n) x (sum_f_R0 (tg_alt (Series.exp_term (x * x / 2))) n).
Proof.
  assert (term : forall i, Series.cdf_coef i * (INR (2 * i + 1) * x ^ (2 * i))
                          = tg_alt (Series.exp_term (x * x / 2)) i).
  { intros i. unfold Series.cdf_coef, tg_alt, Series.exp_term.
    replace (x * x / 2) with (x ^ 2 * / 2) by field.
    rewrite Rpow_mult_distr, <- pow_mult, pow_inv.
    assert (INR (fact i) <> 0) by apply INR_fact_neq_0.
    assert (INR (2 * i + 1) <> 0) by (apply not_0_INR; lia).
    assert (2 ^ i <> 0) by (apply pow_nonzero; lra).
    field. repeat split; assumption. }
  induction n as [| n IH].
  - apply (derivable_pt_lim_ext (fun y => Series.cdf_coef 0 * y ^ (2 * 0 + 1))); [reflexivity |].
    cbn [sum_f_R0]. rewrite <- term. apply derivable_pt_lim_monomial.
  - cbn [sum_f_R0].
    apply (derivable_pt_lim_ext
             (plus_fct (Series.cdf_num n) (fun y => Series.cdf_coef (S n) * y ^ (2 * S n + 1))));
      [reflexivity |].
    apply derivable_pt_lim_plus; [exact IH |].
    rewrite <- term. apply derivable_pt_lim_monomial.
Qed.

Lemma derivable_pt_lim_cdf_poly (n : nat) (x : R) :
  derivable_pt_lim (Series.cdf_poly n) x (Series.pdf_poly n x).
Proof.
  unfold Series.pdf_poly, Rdiv. rewrite Rmult_comm.
  apply (derivable_pt_lim_ext (mult_real_fct (/ sqrt (2 * PI)) (Series.cdf_num n))).
  - intros y. unfold mult_real_fct, Series.cdf_poly, Rdiv. ring.
  - apply derivable_pt_lim_scal. apply derivable_pt_lim_cdf_sum.
Qed.

Lemma sqrt_2PI_pos : 0 < sqrt (2 * PI).
Proof. apply sqrt_lt_R0. pose proof PI_RGT_0. lra. Qed.

Lemma gauss_pdf_between (N : nat) (x : R) :
  -1 <= x <= 1 ->
  Series.pdf_poly (S (2 * N)) x <= Instances.gauss_pdf x <= Series.pdf_poly (2 * N) x.
Proof.
  intros Hx. pose proof sqrt_2PI_pos as Hs.
  assert (Hy : 0 <= x * x / 2 <= 1) by nra.
  pose proof (exp_neg_bounds (x * x / 2) N Hy) as [Hl Hu].
  unfold Series.pdf_poly, Instances.gauss_pdf.
  replace (- (x * x) / 2) with (- (x * x / 2)) by field.
  assert (Hi : 0 < / sqrt (2 * PI)) by (apply Rinv_0_lt_compat; assumption).
  unfold Rdiv at 1 3 4 6.
  split; apply Rmult_le_compat_r; lra.
Qed.

Section IntegralBounds.

Variables f P p : R -> R.
Variables a b : R.
Hypothesis a_le_b : a <= b.
Hypothesis f_continuous : forall x, a <= x <= b -> continuity_pt f x.
Hypothesis P_derivative : forall x, a <= x <= b -> derivable_pt_lim P x (p x).

Let prim := primitive a_le_b (FTC_P1 a_le_b f_continuous).

Lemma primitive_at_bounds (pr : Riemann_integrable f a b) :
  prim a = 0 /\ prim b = RiemannInt pr.
Proof.
  unfold prim, primitive. split.
  - destruct (Rle_dec a a) as [Haa | Haa]; [| elim Haa; apply Rle_refl].
    destruct (Rle_dec a b) as [Hab | Hab]; [| elim Hab; exact a_le_b].
    apply RiemannInt_P9.
  - destruct (Rle_dec a b) as [Hab | Hab]; [| elim Hab; exact a_le_b].
    destruct (Rle_dec b b) as [Hbb | Hbb]; [| elim Hbb; apply Rle_refl].
    apply RiemannInt_P5.
Qed.

Lemma primitive_minus_increment :
  a < b ->
  exists c, a < c < b /\ (prim b - P b) - (prim a - P a) = (f c - p c) * (b - a).
Proof.
  intros Hlt.
  destruct (MVT_cor2 (fun x => prim x - P x) (fun x => f x - p x) a b Hlt) as (c & Hc & Hin).
  - intros c Hc.
    apply (derivable_pt_lim_minus prim P c (f c) (p c)).
    + apply RiemannInt_P28. assumption.
    + apply P_derivative. assumption.
  - exists c. split; assumption.
Qed.

Lemma RiemannInt_lower (pr : Riemann_integrable f a b) :
  (forall x, a <= x <= b -> p x <= f x) -> P b - P a <= RiemannInt pr.
Proof.
  intros Hle. destruct (primitive_at_bounds pr) as [Ha Hb].
  destruct (Rle_lt_or_eq_dec a b a_le_b) as [Hlt | Heq].
  - destruct (primitive_minus_increment Hlt) as (c & Hc & E).
    assert (0 <= (f c - p c) * (b - a)).
    { apply Rmult_le_pos; [| lra]. specialize (Hle c). lra. }
    lra.
  - rewrite <- Hb. replace (prim b) with (prim a) by (f_equal; exact Heq).
    replace (P b) with (P a) by (f_equal; exact Heq). lra.
Qed.

Lemma RiemannInt_upper (pr : Riemann_integrable f a b) :
  (forall x, a <= x <= b -> f x <= p x) -> RiemannInt pr <= P b - P a.
Proof.
  intros Hle. destruct (primitive_at_bounds pr) as [Ha Hb].
  destruct (Rle_lt_or_eq_dec a b a_le_b) as [Hlt | Heq].
  - destruct (primitive_minus_increment Hlt) as (c & Hc & E).
    assert (0 <= (p c - f c) * (b - a)).
    { apply Rmult_le_pos; [| lra]. specialize (Hle c). lra. }
    lra.
  - rewrite <- Hb. replace (prim b) with (prim a) by (f_equal; exact Heq).
    replace (P b) with (P a) by (f_equal; exact Heq). lra.
Qed.

End IntegralBounds.

Lemma cdf_poly_0 (n : nat) : Series.cdf_poly n 0 = 0.
Proof.
  unfold Series.cdf_poly, Series.cdf_num.
  replace (sum_f_R0 (fun i => Series.cdf_coef i * 0 ^ (2 * i + 1)) n) with 0.
  - unfold Rdiv. ring.
  - induction n as [| n IH]; cbn [sum_f_R0].
    + rewrite pow_ne_zero by lia. ring.
    + rewrite <- IH, pow_ne_zero by lia. ring.
Qed.

Lemma gauss_integral_between (N : nat) (a b : R) (pr : Riemann_integrable Instances.gauss_pdf a b) :
  -1 <= a -> a <= b -> b <= 1 ->
  Series.cdf_poly (S (2 * N)) b - Series.cdf_poly (S (2 * N)) a <= RiemannInt pr
  <= Series.cdf_poly (2 * N) b - Series.cdf_poly (2 * N) a.
Proof.
  intros Ha Hab Hb. split.
  - apply (RiemannInt_lower Instances.gauss_pdf (Series.cdf_poly (S (2 * N))) (Series.pdf_poly (S (2 * N))) a b Hab).
    + intros x _. apply gauss_pdf_continuity.
    + intros x _. apply derivable_pt_lim_cdf_poly.
    + intros x Hx. apply gauss_pdf_between. lra.
  - apply (RiemannInt_upper Instances.gauss_pdf (Series.cdf_poly (2 * N)) (Series.pdf_poly (2 * N)) a b Hab).
    + intros x _. apply gauss_pdf_continuity.
    + intros x _. apply derivable_pt_lim_cdf_poly.
    + intros x Hx. apply gauss_pdf_between. lra.
Qed.

Lemma std_normal_cdf_between (N : nat) (x : R) :
  0 <= x <= 1 ->
  1 / 2 + Series.cdf_poly (S (2 * N)) x <= Instances.std_normal_cdf x <= 1 / 2 + Series.cdf_poly (2 * N) x.
Proof.
  intros [Hx0 Hx1]. unfold Instances.std_normal_cdf.
  pose proof (gauss_integral_between N 0 x (Instances.gauss_pdf_integrable 0 x)) as H.
  rewrite !cdf_poly_0 in H. lra.
Qed.

Lemma gauss_pdf_even (x : R) : Instances.gauss_pdf (- x) = Instances.gauss_pdf x.
Proof. unfold Instances.gauss_pdf. replace (- x * - x) with (x * x) by ring. reflexivity. Qed.

Lemma gauss_integral_reflect (x : R) :
  0 <= x ->
  RiemannInt (Instances.gauss_pdf_integrable (- x) 0) = RiemannInt (Instances.gauss_pdf_integrable 0 x).
Proof.
  intros Hx.
  assert (C0 : forall y, 0 <= y <= x -> continuity_pt Instances.gauss_pdf y)
    by (intros y _; apply gauss_pdf_continuity).
  set (prim := primitive Hx (FTC_P1 Hx C0)).
  destruct (primitive_at_bounds Instances.gauss_pdf 0 x Hx C0 (Instances.gauss_pdf_integrable 0 x)) as [P0 Px].
  fold prim in P0, Px.
  set (P := fun y => - prim (- y)).
  assert (HP : forall y, - x <= y <= 0 -> derivable_pt_lim P y (Instances.gauss_pdf y)).
  { intros y Hy.
    apply (derivable_pt_lim_ext (opp_fct (comp prim (opp_fct id)))); [reflexivity |].
    replace (Instances.gauss_pdf y) with (- (Instances.gauss_pdf (- y) * -1))
      by (rewrite gauss_pdf_even; ring).
    apply derivable_pt_lim_opp. apply derivable_pt_lim_comp.
    - apply derivable_pt_lim_opp. apply derivable_pt_lim_id.
    - unfold opp_fct, id. apply RiemannInt_P28. lra. }
  assert (Hab : - x <= 0) by lra.
  assert (C1 : forall y, - x <= y <= 0 -> continuity_pt Instances.gauss_pdf y)
    by (intros y _; apply gauss_pdf_continuity).
  pose proof (RiemannInt_lower Instances.gauss_pdf P Instances.gauss_pdf (- x) 0 Hab C1 HP
                (Instances.gauss_pdf_integrable (- x) 0)) as Hlo.
  pose proof (RiemannInt_upper Instances.gauss_pdf P Instances.gauss_pdf (- x) 0 Hab C1 HP
                (Instances.gauss_pdf_integrable (- x) 0)) as Hhi.
  assert (E : P 0 - P (- x) = RiemannInt (Instances.gauss_pdf_integrable 0 x)).
  { unfold P. rewrite Ropp_0, Ropp_involutive, P0, Px. ring. }
  rewrite E in Hlo, Hhi.
  apply Rle_antisym; [apply Hhi | apply Hlo]; intros; lra.
Qed.

Lemma std_normal_cdf_symmetric (x : R) : Instances.std_normal_cdf (- x) = 1 - Instances.std_normal_cdf x.
Proof.
  unfold Instances.std_normal_cdf.
  destruct (Rle_lt_dec 0 x) as [Hx | Hx].
  - rewrite (RiemannInt_P8 (Instances.gauss_pdf_integrable 0 (- x)) (Instances.gauss_pdf_integrable (- x) 0)).
    rewrite (gauss_integral_reflect x Hx). lra.
  - assert (Hx' : 0 <= - x) by lra.
    pose proof (gauss_integral_reflect (- x) Hx') as E.
    rewrite (RiemannInt_P8 (Instances.gauss_pdf_integrable 0 x) (Instances.gauss_pdf_integrable x 0)).
    revert E. rewrite Ropp_involutive. intros E. rewrite E. lra.
Qed.

Lemma PI_bounds : 31415926535 / 10000000000 <= PI <= 31415926540 / 10000000000.
Proof.
  pose proof (PI_2_3_7_ineq 4) as [Hlo Hhi].
  unfold tg_alt, PI_2_3_7_tg, Ratan_seq in Hlo, Hhi.
  simpl in Hlo, Hhi.
  split; lra.
Qed.

Lemma sqrt_2PI_bounds :
  25066282745 / 10000000000 <= sqrt (2 * PI) <= 25066282748 / 10000000000.
Proof.
  pose proof PI_bounds as [Hlo Hhi]. pose proof sqrt_2PI_pos as Hs.
  assert (E : sqrt (2 * PI) * sqrt (2 * PI) = 2 * PI) by (apply sqrt_sqrt; lra).
  set (s := sqrt (2 * PI)) in *.
  split.
  - destruct (Rle_lt_dec (25066282745 / 10000000000) s) as [H | H]; [assumption | nra].
  - destruct (Rle_lt_dec s (25066282748 / 10000000000)) as [H | H]; [assumption | nra].
Qed.

Lemma inv_sqrt_2PI_bounds :
  39894228037 / 100000000000 <= / sqrt (2 * PI) <= 39894228043 / 100000000000.
Proof.
  pose proof sqrt_2PI_bounds as [Hlo Hhi]. pose proof sqrt_2PI_pos as Hs.
  assert (E : sqrt (2 * PI) * / sqrt (2 * PI) = 1) by (apply Rinv_r; lra).
  assert (Hi : 0 < / sqrt (2 * PI)) by (apply Rinv_0_lt_compat; assumption).
  set (s := sqrt (2 * PI)) in *. set (i := / s) in *.
  split.
  - destruct (Rle_lt_dec (39894228037 / 100000000000) i) as [H | H]; [assumption |].
    assert (0 <= (39894228037 / 100000000000 - i) * (25066282748 / 10000000000 - s))
      by (apply Rmult_le_pos; lra).
    nra.
  - destruct (Rle_lt_dec i (39894228043 / 100000000000)) as [H | H]; [assumption |].
    assert (0 <= (i - 39894228043 / 100000000000) * (s - 25066282745 / 10000000000))
      by (apply Rmult_le_pos; lra).
    nra.
Qed.

Lemma mult_between (a x b c y d : R) :
  0 <= a <= x -> x <= b -> 0 <= c <= y -> y <= d -> a * c <= x * y <= b * d.
Proof. intros. split; apply Rmult_le_compat; lra. Qed.

(** ** The price *)






(** ** The two variants agree *)



(** ** Ranges of the Greeks *)





(** ** Both prices in one result *)



(** ** Inputs outside the data model *)

Section InvalidNumbers.

Variable norm_cdf : R -> R.
Variable norm_pdf : R -> R.
Variable ot : string.
Variables S K r t sigma : R.



Lemma d1_expr_log_domain :
  K <> 0 -> S / K <= 0 ->
  bs_option_pricer.d1_expr S K r t sigma = Raise math_domain_error.
Proof.
  intros HK Hq. unfold bs_option_pricer.d1_expr.
  rewrite truediv_ok by assumption. simpl.
  rewrite math_log_domain by assumption. reflexivity.
Qed.





End InvalidNumbers.




(** ** Kinds outside the enumeration *)

Lemma unknown_kind_returns_None (norm_cdf norm_pdf : R -> R) (c : Spec.OptionContract)
    (ot : string) :
  Spec.valid c ->
  str_in ot ["c"; "call"; "p"; "put"]%string = false ->
  Engine.kind_operations_return_None norm_cdf norm_pdf ot (Spec.spot c) (Spec.strike c)
    (Spec.rate c) (Spec.maturity c) (Spec.volatility c).
Proof.
  intros Hv Hot.
  assert (Hc : str_in ot ["c"; "call"]%string = false /\
               str_in ot ["p"; "put"]%string = false).
  { unfold str_in in *. simpl in *.
    destruct (ot =? "c")%string, (ot =? "call")%string, (ot =? "p")%string,
      (ot =? "put")%string; simpl in *; try discriminate; split; reflexivity. }
  destruct Hc as [Hc Hp]. unfold Engine.kind_operations_return_None.
  rewrite (bsmodel_valid norm_cdf c Hv ot), (delta_valid norm_cdf c Hv ot),
    (theta_valid norm_cdf norm_pdf c Hv ot), (rho_valid norm_cdf c Hv ot), Hc, Hp.
  repeat split; reflexivity.
Qed.

Lemma unknown_kind_metrics_raise (norm_cdf norm_pdf : R -> R) (c : Spec.OptionContract)
    (ot : string) :
  Spec.valid c ->
  str_in ot ["c"; "call"; "p"; "put"]%string = false ->
  bs_option_pricer_oop.calculate_option_metrics norm_cdf norm_pdf
    (bs_option_pricer_oop.Build_BlackScholesModel ot (Spec.spot c) (Spec.strike c)
       (Spec.rate c) (Spec.maturity c) (Spec.volatility c))
  = Raise (UnboundLocalError "theta").
Proof.
  intros Hv Hot.
  assert (Hc : str_in ot ["c"; "call"]%string = false /\
               str_in ot ["p"; "put"]%string = false).
  { unfold str_in in *. simpl in *.
    destruct (ot =? "c")%string, (ot =? "call")%string, (ot =? "p")%string,
      (ot =? "put")%string; simpl in *; try discriminate; split; reflexivity. }
  destruct Hc as [Hc Hp].
  pose proof (valid_sqrt_pos c Hv) as Hst.
  pose proof (calculate_d1_d2_valid c Hv ot) as Hd.
  pose proof Hv as (HS & HK & Ht & Hs).
  unfold bs_option_pricer_oop.calculate_option_metrics.
  rewrite Hd. simpl.
  unfold bs_option_pricer_oop.calculate_gamma, bs_option_pricer_oop.calculate_theta.
  cbn [bs_option_pricer_oop.option_type bs_option_pricer_oop.S bs_option_pricer_oop.K
       bs_option_pricer_oop.r bs_option_pricer_oop.t bs_option_pricer_oop.sigma].
  rewrite Hc, Hp. rewrite math_sqrt_ok by lra. cbn [bind].
  rewrite truediv_ok; [reflexivity |].
  apply Rgt_not_eq. repeat apply Rmult_lt_0_compat; assumption.
Qed.

(** C4 on the code: with the kind "x", outside the enumeration, and the
    reference contract, [bsmodel], [delta], [theta] and [rho] return [None]
    and raise nothing; [calculate_option_metrics] stops on the unbound
    local [theta]. *)
Theorem unknown_kind_is_not_rejected :
  Engine.kind_operations_return_None Instances.std_normal_cdf Instances.gauss_pdf "x"
    100 100 (5 / 100) 1 (2 / 10) /\
  bs_option_pricer_oop.calculate_option_metrics Instances.std_normal_cdf Instances.gauss_pdf
    (bs_option_pricer_oop.Build_BlackScholesModel "x" 100 100 (5 / 100) 1 (2 / 10))
  = Raise (UnboundLocalError "theta").
Proof.
  split.
  - exact (unknown_kind_returns_None Instances.std_normal_cdf Instances.gauss_pdf
             Instances.reference_contract "x" reference_contract_valid eq_refl).
  - exact (unknown_kind_metrics_raise Instances.std_normal_cdf Instances.gauss_pdf
             Instances.reference_contract "x" reference_contract_valid eq_refl).
Qed.

(** ** The input collectors *)

Lemma str_replace_absent (old : ascii) (new s : string) :
  str_contains old s = false -> str_replace old new s = s.
Proof.
  induction s as [| ch s IH]; simpl; [reflexivity |].
  destruct (Ascii.eqb ch old); simpl; [discriminate |].
  intros H. rewrite IH by assumption. reflexivity.
Qed.

Ltac io_step :=
  cbn [stdin stdout fst snd negb
       bs_option_pricer.float_ bs_option_pricer.str_ bs_option_pricer.replace_
       bs_option_pricer_oop.float_ bs_option_pricer_oop.str_
       bs_option_pricer_oop.replace_].

Section Collectors.

Local Open Scope Q_scope.

Variable py_float : string -> result Q.
Variable py_str : Q -> string.

Variables kind_line S_line K_line r_line t_line sigma_line : string.
Variable rest : list string.
Variable out : list string.

Let w : world :=
  World (kind_line :: S_line :: K_line :: r_line :: t_line :: sigma_line :: rest) out.

Let r_text := str_replace "," "." r_line.
Let sigma_text := str_replace "," "." sigma_line.

Variables S K r t sigma : Q.

Hypothesis kind_ok : str_in (str_lower kind_line) ["c"; "call"; "p"; "put"]%string = true.
Hypothesis S_ok : py_float (str_replace "," "." S_line) = Ok S.
Hypothesis K_ok : py_float (str_replace "," "." K_line) = Ok K.
Hypothesis t_ok : py_float (str_replace "," "." t_line) = Ok t.

(** In [bs_option_pricer.py] a rate or volatility written with a percent
    sign is read without the sign and divided by 100, and a maturity
    above 1 is divided by 365. *)
Lemma get_input_try_returns :
  py_float (str_replace "%" "" r_text) = Ok r ->
  py_float (str_replace "%" "" sigma_text) = Ok sigma ->
  fst (bs_option_pricer.get_input_try py_float py_str w)
  = Ok (str_lower kind_line, S, K,
        if str_contains "%" r_text then r / 100 else r,
        if Qle_bool t 1 then t else t / 365,
        if str_contains "%" sigma_text then sigma / 100 else sigma).
Proof.
  intros Hr Hs. unfold r_text, sigma_text in *.
  unfold bs_option_pricer.get_input_try, w, io_bind, input, io_lift, io_ret,
    io_raise, write.
  io_step. rewrite kind_ok. io_step. rewrite S_ok, K_ok. io_step.
  destruct (str_contains "%" (str_replace "," "." r_line)) eqn:Er; io_step.
  - rewrite Hr. io_step. rewrite t_ok. io_step.
    destruct (str_contains "%" (str_replace "," "." sigma_line)) eqn:Es; io_step.
    + rewrite Hs. reflexivity.
    + rewrite (str_replace_absent _ _ _ Es) in Hs. rewrite Hs. reflexivity.
  - rewrite (str_replace_absent _ _ _ Er) in Hr. rewrite Hr. io_step.
    rewrite t_ok. io_step.
    destruct (str_contains "%" (str_replace "," "." sigma_line)) eqn:Es; io_step.
    + rewrite Hs. reflexivity.
    + rewrite (str_replace_absent _ _ _ Es) in Hs. rewrite Hs. reflexivity.
Qed.

(** In [bs_option_pricer_oop.py] [float] is applied first: a rate that
    [float] refuses ends the attempt with the [ValueError] of [float]. *)
Lemma oop_get_input_try_rate_refused (msg : string) :
  py_float r_text = Raise (ValueError msg) ->
  fst (bs_option_pricer_oop.get_input_try py_float py_str w) = Raise (ValueError msg).
Proof.
  intros Hr. unfold r_text in *.
  unfold bs_option_pricer_oop.get_input_try, w, io_bind, input, io_lift, io_ret,
    io_raise, write.
  io_step. rewrite kind_ok. io_step. rewrite S_ok, K_ok. io_step.
  rewrite Hr. reflexivity.
Qed.

(** What [float] accepts is kept as it is: the test for a percent sign
    looks at the text of a float, which has none. *)
Lemma oop_get_input_try_returns :
  (forall q, str_contains "%" (py_str q) = false) ->
  py_float r_text = Ok r ->
  py_float sigma_text = Ok sigma ->
  fst (bs_option_pricer_oop.get_input_try py_float py_str w)
  = Ok (str_lower kind_line, S, K, r, if Qle_bool t 1 then t else t / 365, sigma).
Proof.
  intros Hstr Hr Hs. unfold r_text, sigma_text in *.
  unfold bs_option_pricer_oop.get_input_try, w, io_bind, input, io_lift, io_ret,
    io_raise, write.
  io_step. rewrite kind_ok. io_step. rewrite S_ok, K_ok. io_step.
  rewrite Hr. io_step. rewrite Hstr. io_step. rewrite t_ok. io_step.
  rewrite Hs. io_step. rewrite Hstr. reflexivity.
Qed.

End Collectors.

(** ** The loop of [get_input] ends

    No step puts text back on the input, and an attempt that ends in
    [ValueError] has taken at least the line of the option type. *)

Lemma consumes_ret {A : Type} (a : A) : consumes (io_ret a).
Proof. intros w res w' H. inversion H. lia. Qed.

Lemma consumes_raise {A : Type} (e : exn) : consumes (@io_raise A e).
Proof. intros w res w' H. inversion H. lia. Qed.

Lemma consumes_lift {A : Type} (c : result A) : consumes (io_lift c).
Proof. intros w res w' H. inversion H. lia. Qed.

Lemma consumes_input (prompt : string) : consumes (input prompt).
Proof.
  intros [inp out] res w' H. unfold input in H. simpl in H.
  destruct inp as [| line rest]; inversion H; simpl; lia.
Qed.

Lemma consumes_bind {A B : Type} (c : io A) (k : A -> io B) :
  consumes c -> (forall a, consumes (k a)) -> consumes (io_bind c k).
Proof.
  intros Hc Hk w res w' H. unfold io_bind in H.
  destruct (c w) as [[a | e] w1] eqn:E.
  - apply Hc in E. apply Hk in H. lia.
  - inversion H; subst. apply Hc in E. assumption.
Qed.

Lemma consumes_if {A : Type} (b : bool) (c1 c2 : io A) :
  consumes c1 -> consumes c2 -> consumes (if b then c1 else c2).
Proof. destruct b; auto. Qed.

Create HintDb consumes.
#[local] Hint Resolve consumes_ret consumes_raise consumes_lift consumes_input
  consumes_if : consumes.

Ltac consumes_tac :=
  repeat (first [ apply consumes_bind; [| intros ? ]
                | apply consumes_if
                | solve [ auto with consumes ] ]).

Lemma get_input_try_consumes (py_float : string -> result Q) (py_str : Q -> string) :
  consumes (bs_option_pricer.get_input_try py_float py_str).
Proof. unfold bs_option_pricer.get_input_try. consumes_tac. Qed.

Lemma oop_get_input_try_consumes (py_float : string -> result Q) (py_str : Q -> string) :
  consumes (bs_option_pricer_oop.get_input_try py_float py_str).
Proof. unfold bs_option_pricer_oop.get_input_try. consumes_tac. Qed.

Lemma get_input_try_progress (py_float : string -> result Q) (py_str : Q -> string)
    (w w' : world) (msg : string) :
  bs_option_pricer.get_input_try py_float py_str w = (Raise (ValueError msg), w') ->
  (List.length (stdin w') < List.length (stdin w))%nat.
Proof.
  destruct w as [inp out]. unfold bs_option_pricer.get_input_try.
  unfold io_bind at 1. unfold input at 1. cbn [stdin stdout write].
  destruct inp as [| line rest]; [discriminate |].
  intros H.
  match type of H with
  | ?k ?w0 = _ => assert (Hk : consumes k) by consumes_tac; apply Hk in H
  end.
  simpl in *. lia.
Qed.

Lemma oop_get_input_try_progress (py_float : string -> result Q) (py_str : Q -> string)
    (w w' : world) (msg : string) :
  bs_option_pricer_oop.get_input_try py_float py_str w = (Raise (ValueError msg), w') ->
  (List.length (stdin w') < List.length (stdin w))%nat.
Proof.
  destruct w as [inp out]. unfold bs_option_pricer_oop.get_input_try.
  unfold io_bind at 1. unfold input at 1. cbn [stdin stdout write].
  destruct inp as [| line rest]; [discriminate |].
  intros H.
  match type of H with
  | ?k ?w0 = _ => assert (Hk : consumes k) by consumes_tac; apply Hk in H
  end.
  simpl in *. lia.
Qed.

(** [get_input] is total: on every finite input it returns the six values
    or ends with an exception other than [ValueError]. *)
Lemma get_input_loop_total (py_float : string -> result Q) (py_str : Q -> string)
    (fuel : nat) :
  forall w, (List.length (stdin w) < fuel)%nat ->
  exists res w', bs_option_pricer.get_input_loop py_float py_str fuel w = Some (res, w').
Proof.
  induction fuel as [| fuel IH]; intros w Hlen; [lia |].
  simpl. destruct (bs_option_pricer.get_input_try py_float py_str w) as [[v | e] w1] eqn:E.
  - eauto.
  - destruct e; eauto.
    apply get_input_try_progress in E. apply IH. simpl. lia.
Qed.

Lemma get_input_total (py_float : string -> result Q) (py_str : Q -> string) (w : world) :
  exists res w', bs_option_pricer.get_input py_float py_str w = Some (res, w').
Proof. apply get_input_loop_total. lia. Qed.

Lemma oop_get_input_loop_total (py_float : string -> result Q) (py_str : Q -> string)
    (fuel : nat) :
  forall w, (List.length (stdin w) < fuel)%nat ->
  exists res w', bs_option_pricer_oop.get_input_loop py_float py_str fuel w = Some (res, w').
Proof.
  induction fuel as [| fuel IH]; intros w Hlen; [lia |].
  simpl. destruct (bs_option_pricer_oop.get_input_try py_float py_str w)
    as [[v | e] w1] eqn:E.
  - eauto.
  - destruct e; eauto.
    apply oop_get_input_try_progress in E. apply IH. simpl. lia.
Qed.

Lemma oop_get_input_total (py_float : string -> result Q) (py_str : Q -> string)
    (w : world) :
  exists res w', bs_option_pricer_oop.get_input py_float py_str w = Some (res, w').
Proof. apply oop_get_input_loop_total. lia. Qed.

(** C9 on the code.  The same six lines, with the rate typed "5%", the
    maturity "30" and the volatility "20%", are given to both collectors.
    That of [bs_option_pricer.py] returns the rate 5/100, the maturity
    30/365 and the volatility 20/100.  That of [bs_option_pricer_oop.py]
    applies [float] to "5%" before it looks for the percent sign: the
    attempt ends in [ValueError], the two lines left are refused as option
    types, and the input runs out; no rate of 5/100 is ever returned. *)
Theorem percent_rate_in_both_collectors (py_str : Q -> string) :
  let typed := ["c"; "100"; "100"; "5%"; "30"; "20%"]%string in
  option_map fst
    (bs_option_pricer.get_input Instances.decimal_float py_str (World typed []))
  = Some (Ok ("c"%string, 100 # 1, 100 # 1, 5 # 100, 30 # 365, 20 # 100)) /\
  option_map fst
    (bs_option_pricer_oop.get_input Instances.decimal_float py_str (World typed []))
  = Some (Raise EOFError) /\
  fst (bs_option_pricer_oop.get_input_try Instances.decimal_float py_str (World typed []))
  = Raise (ValueError "could not convert string to float: '5%'").
Proof.
  cbv zeta. repeat split; vm_compute; reflexivity.
Qed.

(** ** The reference values *)

Lemma cdf_poly_num (n : nat) (x : R) :
  Series.cdf_poly n x = Series.cdf_num n x * / sqrt (2 * PI).
Proof. reflexivity. Qed.

Lemma std_normal_cdf_enclosure (x qlo qhi : R) :
  0 <= x <= 1 ->
  0 <= qlo <= Series.cdf_num 5 x ->
  Series.cdf_num 4 x <= qhi ->
  1 / 2 + qlo * (39894228037 / 100000000000) <= Instances.std_normal_cdf x
  <= 1 / 2 + qhi * (39894228043 / 100000000000).
Proof.
  intros Hx [Hq0 Hq5] Hq4.
  destruct inv_sqrt_2PI_bounds as [Hi Hj].
  pose proof (std_normal_cdf_between 2 x Hx) as [Hlo Hhi].
  change (S (2 * 2)) with 5%nat in Hlo. change (2 * 2)%nat with 4%nat in Hhi.
  rewrite cdf_poly_num in Hlo, Hhi.
  set (i := / sqrt (2 * PI)) in *.
  set (q5 := Series.cdf_num 5 x) in *. set (q4 := Series.cdf_num 4 x) in *.
  assert (Hq : q5 <= q4) by (apply (Rmult_le_reg_r i); lra).
  assert (qlo * (39894228037 / 100000000000) <= q5 * i)
    by (apply Rmult_le_compat; lra).
  assert (q4 * i <= qhi * (39894228043 / 100000000000))
    by (apply Rmult_le_compat; lra).
  lra.
Qed.

Lemma std_normal_cdf_35 :
  63683065116 / 100000000000 <= Instances.std_normal_cdf (35 / 100)
  <= 63683065128 / 100000000000.
Proof.
  assert (H5 : 342983579071 / 1000000000000 <= Series.cdf_num 5 (35 / 100))
    by (unfold Series.cdf_num, Series.cdf_coef; simpl; lra).
  assert (H4 : Series.cdf_num 4 (35 / 100) <= 342983579300 / 1000000000000)
    by (unfold Series.cdf_num, Series.cdf_coef; simpl; lra).
  assert (Hx : 0 <= 35 / 100 <= 1) by lra.
  assert (H0 : 0 <= 342983579071 / 1000000000000) by lra.
  pose proof (std_normal_cdf_enclosure _ _ _ Hx (conj H0 H5) H4).
  lra.
Qed.

Lemma std_normal_cdf_15 :
  55961769236 / 100000000000 <= Instances.std_normal_cdf (15 / 100)
  <= 55961769238 / 100000000000.
Proof.
  assert (H5 : 149439393363 / 1000000000000 <= Series.cdf_num 5 (15 / 100))
    by (unfold Series.cdf_num, Series.cdf_coef; simpl; lra).
  assert (H4 : Series.cdf_num 4 (15 / 100) <= 149439393364 / 1000000000000)
    by (unfold Series.cdf_num, Series.cdf_coef; simpl; lra).
  assert (Hx : 0 <= 15 / 100 <= 1) by lra.
  assert (H0 : 0 <= 149439393363 / 1000000000000) by lra.
  pose proof (std_normal_cdf_enclosure _ _ _ Hx (conj H0 H5) H4).
  lra.
Qed.

Lemma discount_factor_bounds :
  95122942447 / 100000000000 <= exp (- (5 / 100)) <= 95122942709 / 100000000000.
Proof.
  pose proof (exp_neg_bounds (5 / 100) 2 ltac:(lra)) as [Hlo Hhi].
  unfold tg_alt, Series.exp_term in Hlo, Hhi. simpl in Hlo, Hhi.
  split; lra.
Qed.

Lemma gauss_pdf_35 :
  3752403468 / 10000000000 <= Instances.gauss_pdf (35 / 100)
  <= 3752403498 / 10000000000.
Proof.
  destruct inv_sqrt_2PI_bounds as [Hi Hj].
  pose proof (exp_neg_bounds (49 / 800) 2 ltac:(lra)) as [Hlo Hhi].
  unfold tg_alt, Series.exp_term in Hlo, Hhi. simpl in Hlo, Hhi.
  unfold Instances.gauss_pdf.
  replace (- (35 / 100 * (35 / 100)) / 2) with (- (49 / 800)) by field.
  set (g := exp (- (49 / 800))) in *.
  change (g / sqrt (2 * PI)) with (g * / sqrt (2 * PI)).
  set (i := / sqrt (2 * PI)) in *.
  assert (94058806329 / 100000000000 * (39894228037 / 100000000000) <= g * i)
    by (apply Rmult_le_compat; lra).
  assert (g * i <= 94058807048 / 100000000000 * (39894228043 / 100000000000))
    by (apply Rmult_le_compat; lra).
  split; lra.
Qed.

Lemma reference_d1_d2 :
  Spec.d1 Instances.reference_contract = 35 / 100 /\
  Spec.d2 Instances.reference_contract = 15 / 100.
Proof.
  assert (E1 : Spec.d1 Instances.reference_contract = 35 / 100).
  { unfold Spec.d1, Instances.reference_contract, Rsqr. simpl.
    replace (100 / 100) with 1 by field. rewrite ln_1, sqrt_1. field. }
  split; [exact E1 |].
  unfold Spec.d2. rewrite E1. simpl. rewrite sqrt_1. field.
Qed.

(** C8.  With the standard normal distribution function and density for
    [norm.cdf] and [norm.pdf], and floats read as reals, the operations on
    S = 100, K = 100, r = 0.05, t = 1, sigma = 0.2 return a call price
    within 0.00005 of 10.4506, a put price within 0.00005 of 5.5735, a call
    delta within 0.00005 of 0.6368, and gamma, vega, the call rho and the
    call theta (per day) within 0.000005 of 0.01876, 0.37524, 0.53232 and
    -0.01757. *)
Theorem reference_values :
  exists call put delta_call gamma_value vega_value rho_call theta_call : R,
    bs_option_pricer.bsmodel Instances.std_normal_cdf "c" 100 100 (5 / 100) 1 (2 / 10)
    = Ok (VFloat call) /\
    bs_option_pricer.bsmodel Instances.std_normal_cdf "p" 100 100 (5 / 100) 1 (2 / 10)
    = Ok (VFloat put) /\
    bs_option_pricer.delta Instances.std_normal_cdf "c" 100 100 (5 / 100) 1 (2 / 10)
    = Ok (VFloat delta_call) /\
    bs_option_pricer.gamma Instances.gauss_pdf 100 100 (5 / 100) 1 (2 / 10)
    = Ok gamma_value /\
    bs_option_pricer.vega Instances.gauss_pdf 100 100 (5 / 100) 1 (2 / 10)
    = Ok vega_value /\
    bs_option_pricer.rho Instances.std_normal_cdf "c" 100 100 (5 / 100) 1 (2 / 10)
    = Ok (VFloat rho_call) /\
    bs_option_pricer.theta Instances.std_normal_cdf Instances.gauss_pdf "c"
      100 100 (5 / 100) 1 (2 / 10) = Ok (VFloat theta_call) /\
    Rabs (call - 104506 / 10000) <= 5 / 100000 /\
    Rabs (put - 55735 / 10000) <= 5 / 100000 /\
    Rabs (delta_call - 6368 / 10000) <= 5 / 100000 /\
    Rabs (gamma_value - 1876 / 100000) <= 5 / 1000000 /\
    Rabs (vega_value - 37524 / 100000) <= 5 / 1000000 /\
    Rabs (rho_call - 53232 / 100000) <= 5 / 1000000 /\
    Rabs (theta_call - - (1757 / 100000)) <= 5 / 1000000.
Proof.
  pose proof reference_contract_valid as Hv.
  destruct reference_d1_d2 as [E1 E2].
  pose proof (bsmodel_valid Instances.std_normal_cdf _ Hv "c") as Hcall.
  pose proof (bsmodel_valid Instances.std_normal_cdf _ Hv "p") as Hput.
  pose proof (delta_valid Instances.std_normal_cdf _ Hv "c") as Hdelta.
  pose proof (gamma_valid Instances.gauss_pdf _ Hv) as Hgamma.
  pose proof (vega_valid Instances.gauss_pdf _ Hv) as Hvega.
  pose proof (rho_valid Instances.std_normal_cdf _ Hv "c") as Hrho.
  pose proof (theta_valid Instances.std_normal_cdf Instances.gauss_pdf _ Hv "c") as Htheta.
  rewrite E1, E2 in *.
  replace (str_in "c" ["c"; "call"]%string) with true in * by reflexivity.
  replace (str_in "p" ["c"; "call"]%string) with false in * by reflexivity.
  replace (str_in "p" ["p"; "put"]%string) with true in * by reflexivity.
  do 7 eexists.
  split; [exact Hcall |]. split; [exact Hput |]. split; [exact Hdelta |].
  split; [exact Hgamma |]. split; [exact Hvega |]. split; [exact Hrho |].
  split; [exact Htheta |].
  clear Hcall Hput Hdelta Hgamma Hvega Hrho Htheta E1 E2 Hv.
  cbn [Spec.spot Spec.strike Spec.rate Spec.maturity Spec.volatility
       Instances.reference_contract].
  rewrite !std_normal_cdf_symmetric, sqrt_1.
  replace (- (5 / 100) * 1) with (- (5 / 100)) by lra.
  destruct std_normal_cdf_35 as [P1lo P1hi]. destruct std_normal_cdf_15 as [P2lo P2hi].
  destruct discount_factor_bounds as [Elo Ehi]. destruct gauss_pdf_35 as [Dlo Dhi].
  set (P1 := Instances.std_normal_cdf (35 / 100)) in *.
  set (P2 := Instances.std_normal_cdf (15 / 100)) in *.
  set (E := exp (- (5 / 100))) in *.
  set (D := Instances.gauss_pdf (35 / 100)) in *.
  assert (HPE : 55961769236 / 100000000000 * (95122942447 / 100000000000) <= P2 * E
                <= 55961769238 / 100000000000 * (95122942709 / 100000000000))
    by (apply mult_between; lra).
  repeat split; apply Rabs_le; split; lra.
Qed.

(** * Further properties of the code *)

(** ** Relations between the call and the put Greeks *)









(** ** Bounds and signs *)







(** ** Change of unit *)




(** ** What a returned attempt has read *)

Lemma io_bind_ok {A B : Type} (c : io A) (k : A -> io B) (w w' : world) (v : B) :
  io_bind c k w = (Ok v, w') ->
  exists a w1, c w = (Ok a, w1) /\ k a w1 = (Ok v, w').
Proof.
  unfold io_bind. destruct (c w) as [[a | e] w1]; [eauto | discriminate].
Qed.

Lemma input_ok (prompt line : string) (w w' : world) :
  input prompt w = (Ok line, w') ->
  stdin w = line :: stdin w' /\ stdout w' = stdout w ++ [prompt].
Proof.
  unfold input, write. cbn [stdin stdout].
  destruct (stdin w) as [| l rest]; [discriminate |].
  intros H. inversion H; subst. split; reflexivity.
Qed.

Lemma io_lift_ok {A : Type} (c : result A) (w w' : world) (v : A) :
  io_lift c w = (Ok v, w') -> c = Ok v /\ w' = w.
Proof. unfold io_lift. intros H. inversion H. split; reflexivity. Qed.

Lemma io_ret_ok {A : Type} (a v : A) (w w' : world) :
  io_ret a w = (Ok v, w') -> v = a /\ w' = w.
Proof. unfold io_ret. intros H. inversion H. split; reflexivity. Qed.

Tactic Notation "io_invert" hyp(H) "as" ident(a) ident(w1) ident(H1) :=
  apply io_bind_ok in H; destruct H as (a & w1 & H1 & H); cbv beta zeta in H.

Section ReturnedAttempt.

Local Open Scope Q_scope.

Variable py_float : string -> result Q.
Variable py_str : Q -> string.

Lemma percent_step (text : string) (w w' : world) (x : Q) :
  io_bind
    (if str_contains "%" (bs_option_pricer.str_ py_str (PStr text))
     then io_bind (io_lift (bs_option_pricer.replace_ (PStr text) "%" ""))
            (fun s => io_bind (io_lift (bs_option_pricer.float_ py_float (PStr s)))
                        (fun x => io_ret (PFloat (x / 100))))
     else io_ret (PStr text))
    (fun r => io_lift (bs_option_pricer.float_ py_float r)) w = (Ok x, w') ->
  Reading.percent_reading py_float text x /\ w' = w.
Proof.
  unfold Reading.percent_reading. cbn [bs_option_pricer.str_ bs_option_pricer.replace_].
  intros H. io_invert H as r0 w0 Hr.
  destruct (str_contains "%" text).
  - io_invert Hr as s1 w1 Hs. apply io_lift_ok in Hs as [E1 ->]. inversion E1; subst.
    io_invert Hr as y w2 Hy. apply io_lift_ok in Hy as [E2 ->].
    apply io_ret_ok in Hr as [-> ->].
    apply io_lift_ok in H as [E3 ->]. cbn in E2, E3. inversion E3; subst.
    split; [eauto | reflexivity].
  - apply io_ret_ok in Hr as [-> ->].
    apply io_lift_ok in H as [E ->]. split; [exact E | reflexivity].
Qed.

(** When an attempt of [bs_option_pricer.get_input] returns, six lines were
    read; the option type is the first one in lower case and is in the
    enumeration; the numbers are what [float] made of the other lines, with
    commas read as points, percentages divided by 100 and a maturity above
    1 divided by 365. *)
Lemma get_input_try_ok (w w' : world) (ot : string) (vS vK vr vt vsigma : Q) :
  bs_option_pricer.get_input_try py_float py_str w
  = (Ok (ot, vS, vK, vr, vt, vsigma), w') ->
  exists l1 l2 l3 l4 l5 l6 t0,
    stdin w = l1 :: l2 :: l3 :: l4 :: l5 :: l6 :: stdin w' /\
    ot = str_lower l1 /\
    str_in ot ["c"; "call"; "p"; "put"]%string = true /\
    py_float (str_replace "," "." l2) = Ok vS /\
    py_float (str_replace "," "." l3) = Ok vK /\
    Reading.percent_reading py_float (str_replace "," "." l4) vr /\
    py_float (str_replace "," "." l5) = Ok t0 /\
    vt = (if Qle_bool t0 1 then t0 else t0 / 365) /\
    Reading.percent_reading py_float (str_replace "," "." l6) vsigma.
Proof.
  unfold bs_option_pricer.get_input_try. intros H.
  io_invert H as l1 w1 I1. apply input_ok in I1 as [I1 _].
  io_invert H as u w1' Hc.
  destruct (str_in (str_lower l1) ["c"; "call"; "p"; "put"]%string) eqn:Hkind;
    cbn [negb] in Hc; [| discriminate].
  apply io_ret_ok in Hc as [_ ->].
  io_invert H as l2 w2 I2. apply input_ok in I2 as [I2 _].
  io_invert H as xS w2' F2. apply io_lift_ok in F2 as [F2 ->].
  io_invert H as l3 w3 I3. apply input_ok in I3 as [I3 _].
  io_invert H as xK w3' F3. apply io_lift_ok in F3 as [F3 ->].
  io_invert H as l4 w4 I4. apply input_ok in I4 as [I4 _].
  io_invert H as r1 w4' Hr. io_invert H as xr w4'' Fr.
  assert (Hrate : Reading.percent_reading py_float (str_replace "," "." l4) xr /\ w4'' = w4).
  { apply percent_step. unfold io_bind at 1. rewrite Hr. exact Fr. }
  destruct Hrate as [Hrate ->].
  io_invert H as l5 w5 I5. apply input_ok in I5 as [I5 _].
  io_invert H as t0 w5' F5. apply io_lift_ok in F5 as [F5 ->].
  io_invert H as l6 w6 I6. apply input_ok in I6 as [I6 _].
  io_invert H as s1 w6' Hs. io_invert H as xs w6'' Fs.
  assert (Hvol : Reading.percent_reading py_float (str_replace "," "." l6) xs /\ w6'' = w6).
  { apply percent_step. unfold io_bind at 1. rewrite Hs. exact Fs. }
  destruct Hvol as [Hvol ->].
  apply io_ret_ok in H as [E ->]. inversion E; subst.
  exists l1, l2, l3, l4, l5, l6, t0.
  rewrite I1, I2, I3, I4, I5, I6. repeat split; assumption.
Qed.

End ReturnedAttempt.

Section ReturnedAttemptOop.

Local Open Scope Q_scope.

Variable py_float : string -> result Q.
Variable py_str : Q -> string.

Lemma oop_percent_step (x r : Q) (w w' : world) :
  (if str_contains "%" (bs_option_pricer_oop.str_ py_str (PFloat x))
   then io_bind (io_lift (bs_option_pricer_oop.replace_ (PFloat x) "%" ""))
          (fun s => io_bind (io_lift (bs_option_pricer_oop.float_ py_float (PStr s)))
                      (fun y => io_ret (y / 100)))
   else io_ret x) w = (Ok r, w') ->
  r = x /\ w' = w.
Proof.
  destruct (str_contains "%" (bs_option_pricer_oop.str_ py_str (PFloat x))).
  - intros H. io_invert H as s w1 Hs. apply io_lift_ok in Hs as [E _].
    discriminate E.
  - intros H. apply io_ret_ok in H. exact H.
Qed.

(** When an attempt of [bs_option_pricer_oop.get_input] returns, the rate
    and the volatility are what [float] made of the typed text: nothing was
    divided by 100. *)
Lemma oop_get_input_try_ok (w w' : world) (ot : string) (vS vK vr vt vsigma : Q) :
  bs_option_pricer_oop.get_input_try py_float py_str w
  = (Ok (ot, vS, vK, vr, vt, vsigma), w') ->
  exists l1 l2 l3 l4 l5 l6 t0,
    stdin w = l1 :: l2 :: l3 :: l4 :: l5 :: l6 :: stdin w' /\
    ot = str_lower l1 /\
    str_in ot ["c"; "call"; "p"; "put"]%string = true /\
    py_float (str_replace "," "." l2) = Ok vS /\
    py_float (str_replace "," "." l3) = Ok vK /\
    py_float (str_replace "," "." l4) = Ok vr /\
    py_float (str_replace "," "." l5) = Ok t0 /\
    vt = (if Qle_bool t0 1 then t0 else t0 / 365) /\
    py_float (str_replace "," "." l6) = Ok vsigma.
Proof.
  unfold bs_option_pricer_oop.get_input_try. intros H.
  io_invert H as l1 w1 I1. apply input_ok in I1 as [I1 _].
  io_invert H as u w1' Hc.
  destruct (str_in (str_lower l1) ["c"; "call"; "p"; "put"]%string) eqn:Hkind;
    cbn [negb] in Hc; [| discriminate].
  apply io_ret_ok in Hc as [_ ->].
  io_invert H as l2 w2 I2. apply input_ok in I2 as [I2 _].
  io_invert H as xS w2' F2. apply io_lift_ok in F2 as [F2 ->].
  io_invert H as l3 w3 I3. apply input_ok in I3 as [I3 _].
  io_invert H as xK w3' F3. apply io_lift_ok in F3 as [F3 ->].
  io_invert H as l4 w4 I4. apply input_ok in I4 as [I4 _].
  io_invert H as xr w4' Fr. apply io_lift_ok in Fr as [Fr ->].
  io_invert H as r1 w4'' Hr. apply oop_percent_step in Hr as [-> ->].
  io_invert H as l5 w5 I5. apply input_ok in I5 as [I5 _].
  io_invert H as t0 w5' F5. apply io_lift_ok in F5 as [F5 ->].
  io_invert H as l6 w6 I6. apply input_ok in I6 as [I6 _].
  io_invert H as xs w6' Fs. apply io_lift_ok in Fs as [Fs ->].
  io_invert H as s1 w6'' Hs. apply oop_percent_step in Hs as [-> ->].
  apply io_ret_ok in H as [E ->]. inversion E; subst.
  exists l1, l2, l3, l4, l5, l6, t0.
  rewrite I1, I2, I3, I4, I5, I6. repeat split; assumption.
Qed.

End ReturnedAttemptOop.

(** ** The loop of [get_input], seen from outside *)

Section Loops.

Variable py_float : string -> result Q.
Variable py_str : Q -> string.

Lemma get_input_loop_fuel (f1 : nat) :
  forall f2 w,
    (List.length (stdin w) < f1)%nat -> (List.length (stdin w) < f2)%nat ->
    bs_option_pricer.get_input_loop py_float py_str f1 w
    = bs_option_pricer.get_input_loop py_float py_str f2 w.
Proof.
  induction f1 as [| f1 IH]; intros f2 w H1 H2; [lia |].
  destruct f2 as [| f2]; [lia |]. simpl.
  destruct (bs_option_pricer.get_input_try py_float py_str w) as [[v | e] w1] eqn:E;
    [reflexivity |].
  destruct e; try reflexivity.
  apply get_input_try_progress in E. apply IH; simpl; lia.
Qed.

Lemma oop_get_input_loop_fuel (f1 : nat) :
  forall f2 w,
    (List.length (stdin w) < f1)%nat -> (List.length (stdin w) < f2)%nat ->
    bs_option_pricer_oop.get_input_loop py_float py_str f1 w
    = bs_option_pricer_oop.get_input_loop py_float py_str f2 w.
Proof.
  induction f1 as [| f1 IH]; intros f2 w H1 H2; [lia |].
  destruct f2 as [| f2]; [lia |]. simpl.
  destruct (bs_option_pricer_oop.get_input_try py_float py_str w) as [[v | e] w1] eqn:E;
    [reflexivity |].
  destruct e; try reflexivity.
  apply oop_get_input_try_progress in E. apply IH; simpl; lia.
Qed.

Lemma get_input_loop_returns (fuel : nat) :
  forall w v w',
    bs_option_pricer.get_input_loop py_float py_str fuel w = Some (Ok v, w') ->
    exists w0,
      bs_option_pricer.get_input_try py_float py_str w0 = (Ok v, w') /\
      (List.length (stdin w0) <= List.length (stdin w))%nat.
Proof.
  induction fuel as [| fuel IH]; intros w v w' H; [discriminate |].
  simpl in H.
  destruct (bs_option_pricer.get_input_try py_float py_str w) as [[v1 | e] w1] eqn:E.
  - inversion H; subst. exists w. split; [assumption | lia].
  - destruct e; try discriminate.
    apply IH in H as (w0 & H0 & Hlen). apply get_input_try_progress in E.
    exists w0. split; [assumption |]. simpl in Hlen. lia.
Qed.

Lemma oop_get_input_loop_returns (fuel : nat) :
  forall w v w',
    bs_option_pricer_oop.get_input_loop py_float py_str fuel w = Some (Ok v, w') ->
    exists w0,
      bs_option_pricer_oop.get_input_try py_float py_str w0 = (Ok v, w') /\
      (List.length (stdin w0) <= List.length (stdin w))%nat.
Proof.
  induction fuel as [| fuel IH]; intros w v w' H; [discriminate |].
  simpl in H.
  destruct (bs_option_pricer_oop.get_input_try py_float py_str w) as [[v1 | e] w1] eqn:E.
  - inversion H; subst. exists w. split; [assumption | lia].
  - destruct e; try discriminate.
    apply IH in H as (w0 & H0 & Hlen). apply oop_get_input_try_progress in E.
    exists w0. split; [assumption |]. simpl in Hlen. lia.
Qed.

Lemma get_input_loop_no_ValueError (fuel : nat) :
  forall w e w',
    bs_option_pricer.get_input_loop py_float py_str fuel w = Some (Raise e, w') ->
    forall msg, e <> ValueError msg.
Proof.
  induction fuel as [| fuel IH]; intros w e w' H; [discriminate |].
  simpl in H.
  destruct (bs_option_pricer.get_input_try py_float py_str w) as [[v1 | e1] w1];
    [discriminate |].
  destruct e1; try (inversion H; subst; intros msg0; discriminate).
  exact (IH _ _ _ H).
Qed.

Lemma oop_get_input_loop_no_ValueError (fuel : nat) :
  forall w e w',
    bs_option_pricer_oop.get_input_loop py_float py_str fuel w = Some (Raise e, w') ->
    forall msg, e <> ValueError msg.
Proof.
  induction fuel as [| fuel IH]; intros w e w' H; [discriminate |].
  simpl in H.
  destruct (bs_option_pricer_oop.get_input_try py_float py_str w) as [[v1 | e1] w1];
    [discriminate |].
  destruct e1; try (inversion H; subst; intros msg0; discriminate).
  exact (IH _ _ _ H).
Qed.

End Loops.

(** X9.  [get_input] of [bs_option_pricer.py], one attempt: whenever the
    body of the [try] block returns, it has read exactly six lines; the
    option type returned is the first line in lower case and is one of
    "c", "call", "p", "put"; spot and strike are [float] of the second and
    third line with commas read as points; rate and volatility are [float]
    of the fourth and sixth line, without the percent sign and divided by
    100 when the line has one; the maturity is [float] of the fifth line,
    divided by 365 when it is above 1. *)
Theorem returned_attempt_read (py_float : string -> result Q) (py_str : Q -> string)
    (w w' : world) (ot : string) (vS vK vr vt vsigma : Q) :
  bs_option_pricer.get_input_try py_float py_str w
  = (Ok (ot, vS, vK, vr, vt, vsigma), w') ->
  exists l1 l2 l3 l4 l5 l6 t0,
    stdin w = l1 :: l2 :: l3 :: l4 :: l5 :: l6 :: stdin w' /\
    ot = str_lower l1 /\
    str_in ot ["c"; "call"; "p"; "put"]%string = true /\
    py_float (str_replace "," "." l2) = Ok vS /\
    py_float (str_replace "," "." l3) = Ok vK /\
    Reading.percent_reading py_float (str_replace "," "." l4) vr /\
    py_float (str_replace "," "." l5) = Ok t0 /\
    vt = (if Qle_bool t0 1 then t0 else t0 / 365)%Q /\
    Reading.percent_reading py_float (str_replace "," "." l6) vsigma.
Proof. apply get_input_try_ok. Qed.

Lemma returned_attempt_read_witness :
  let w := World ["Call"; "100"; "95,5"; "5%"; "30"; "0.2"; "next"]%string [] in
  let py_str := fun q => Reading.float_mark (Q2R q) in
  exists w',
    bs_option_pricer.get_input_try Instances.decimal_float py_str w
    = (Ok ("call"%string, 100 # 1, 955 # 10, 5 # 100, 30 # 365, 2 # 10), w') /\
    exists l1 l2 l3 l4 l5 l6 t0,
      stdin w = l1 :: l2 :: l3 :: l4 :: l5 :: l6 :: stdin w' /\
      "call"%string = str_lower l1 /\
      str_in "call" ["c"; "call"; "p"; "put"]%string = true /\
      Instances.decimal_float (str_replace "," "." l2) = Ok (100 # 1) /\
      Instances.decimal_float (str_replace "," "." l3) = Ok (955 # 10) /\
      Reading.percent_reading Instances.decimal_float (str_replace "," "." l4) (5 # 100) /\
      Instances.decimal_float (str_replace "," "." l5) = Ok t0 /\
      (30 # 365) = (if Qle_bool t0 1 then t0 else t0 / 365)%Q /\
      Reading.percent_reading Instances.decimal_float (str_replace "," "." l6) (2 # 10).
Proof.
  intros w py_str. eexists. 
  assert (H : bs_option_pricer.get_input_try Instances.decimal_float py_str w
              = (Ok ("call"%string, 100 # 1, 955 # 10, 5 # 100, 30 # 365, 2 # 10),
                 World ["next"%string]
                   (stdout (snd (bs_option_pricer.get_input_try
                                   Instances.decimal_float py_str w)))))
    by (vm_compute; reflexivity).
  split; [exact H |].
  exact (returned_attempt_read Instances.decimal_float py_str w _ _ _ _ _ _ _ H).
Defined.

(** X10.  [get_input] of [bs_option_pricer_oop.py], one attempt: whenever
    the body of the [try] block returns, the rate and the volatility are
    [float] of the typed lines as they are (commas read as points); no
    returned rate or volatility was ever divided by 100.  The option type
    is in the enumeration and the maturity is divided by 365 when above
    1, as in the other file. *)
Theorem oop_returned_attempt_read (py_float : string -> result Q) (py_str : Q -> string)
    (w w' : world) (ot : string) (vS vK vr vt vsigma : Q) :
  bs_option_pricer_oop.get_input_try py_float py_str w
  = (Ok (ot, vS, vK, vr, vt, vsigma), w') ->
  exists l1 l2 l3 l4 l5 l6 t0,
    stdin w = l1 :: l2 :: l3 :: l4 :: l5 :: l6 :: stdin w' /\
    ot = str_lower l1 /\
    str_in ot ["c"; "call"; "p"; "put"]%string = true /\
    py_float (str_replace "," "." l2) = Ok vS /\
    py_float (str_replace "," "." l3) = Ok vK /\
    py_float (str_replace "," "." l4) = Ok vr /\
    py_float (str_replace "," "." l5) = Ok t0 /\
    vt = (if Qle_bool t0 1 then t0 else t0 / 365)%Q /\
    py_float (str_replace "," "." l6) = Ok vsigma.
Proof. apply oop_get_input_try_ok. Qed.

Lemma oop_returned_attempt_read_witness :
  let w := World ["P"; "100"; "95,5"; "0,05"; "400"; "0.2"]%string [] in
  let py_str := fun q => Reading.float_mark (Q2R q) in
  exists w',
    bs_option_pricer_oop.get_input_try Instances.decimal_float py_str w
    = (Ok ("p"%string, 100 # 1, 955 # 10, 5 # 100, 400 # 365, 2 # 10), w') /\
    exists l1 l2 l3 l4 l5 l6 t0,
      stdin w = l1 :: l2 :: l3 :: l4 :: l5 :: l6 :: stdin w' /\
      "p"%string = str_lower l1 /\
      str_in "p" ["c"; "call"; "p"; "put"]%string = true /\
      Instances.decimal_float (str_replace "," "." l2) = Ok (100 # 1) /\
      Instances.decimal_float (str_replace "," "." l3) = Ok (955 # 10) /\
      Instances.decimal_float (str_replace "," "." l4) = Ok (5 # 100) /\
      Instances.decimal_float (str_replace "," "." l5) = Ok t0 /\
      (400 # 365) = (if Qle_bool t0 1 then t0 else t0 / 365)%Q /\
      Instances.decimal_float (str_replace "," "." l6) = Ok (2 # 10).
Proof.
  intros w py_str. eexists.
  assert (H : bs_option_pricer_oop.get_input_try Instances.decimal_float py_str w
              = (Ok ("p"%string, 100 # 1, 955 # 10, 5 # 100, 400 # 365, 2 # 10),
                 World []
                   (stdout (snd (bs_option_pricer_oop.get_input_try
                                   Instances.decimal_float py_str w)))))
    by (vm_compute; reflexivity).
  split; [exact H |].
  exact (oop_returned_attempt_read Instances.decimal_float py_str w _ _ _ _ _ _ _ H).
Defined.

(** X11.  [get_input] of [bs_option_pricer.py]: on every finite input the
    loop ends.  It either returns, after at least six lines were read and
    with an option type among "c", "call", "p", "put", or it ends with an
    exception that is not a [ValueError] (all of those are caught): the
    [EOFError] of [input] when the lines run out, or whatever else
    [float] raised. *)
Theorem get_input_outcome (py_float : string -> result Q) (py_str : Q -> string)
    (w : world) :
  exists res w',
    bs_option_pricer.get_input py_float py_str w = Some (res, w') /\
    match res with
    | Ok (ot, _, _, _, _, _) =>
        str_in ot ["c"; "call"; "p"; "put"]%string = true /\
        (List.length (stdin w') + 6 <= List.length (stdin w))%nat
    | Raise e => forall msg, e <> ValueError msg
    end.
Proof.
  destruct (get_input_total py_float py_str w) as (res & w' & H).
  exists res, w'. split; [exact H |].
  destruct res as [[[[[[ot vS] vK] vr] vt] vsigma] | e].
  - apply get_input_loop_returns in H as (w0 & H0 & Hlen).
    apply get_input_try_ok in H0
      as (l1 & l2 & l3 & l4 & l5 & l6 & t0 & Hin & _ & Hkind & _).
    split; [exact Hkind |]. rewrite Hin in Hlen. simpl in Hlen. lia.
  - exact (get_input_loop_no_ValueError py_float py_str _ _ _ _ H).
Qed.

(** X12.  [get_input] of [bs_option_pricer_oop.py]: the same holds; the
    loop ends on every finite input, returns only after six lines with an
    option type of the enumeration, and lets no [ValueError] out. *)
Theorem oop_get_input_outcome (py_float : string -> result Q) (py_str : Q -> string)
    (w : world) :
  exists res w',
    bs_option_pricer_oop.get_input py_float py_str w = Some (res, w') /\
    match res with
    | Ok (ot, _, _, _, _, _) =>
        str_in ot ["c"; "call"; "p"; "put"]%string = true /\
        (List.length (stdin w') + 6 <= List.length (stdin w))%nat
    | Raise e => forall msg, e <> ValueError msg
    end.
Proof.
  destruct (oop_get_input_total py_float py_str w) as (res & w' & H).
  exists res, w'. split; [exact H |].
  destruct res as [[[[[[ot vS] vK] vr] vt] vsigma] | e].
  - apply oop_get_input_loop_returns in H as (w0 & H0 & Hlen).
    apply oop_get_input_try_ok in H0
      as (l1 & l2 & l3 & l4 & l5 & l6 & t0 & Hin & _ & Hkind & _).
    split; [exact Hkind |]. rewrite Hin in Hlen. simpl in Hlen. lia.
  - exact (oop_get_input_loop_no_ValueError py_float py_str _ _ _ _ H).
Qed.

(** X13.  The [while True / try / except ValueError] loop of both files:
    when an attempt ends in a [ValueError], [get_input] prints its message
    and goes on as if called afresh on what is left of the input; the lines
    the failed attempt had read are lost. *)
Theorem get_input_restarts (py_float : string -> result Q) (py_str : Q -> string)
    (w w' : world) (msg : string) :
  (bs_option_pricer.get_input_try py_float py_str w = (Raise (ValueError msg), w') ->
   bs_option_pricer.get_input py_float py_str w
   = bs_option_pricer.get_input py_float py_str (snd (print msg w'))) /\
  (bs_option_pricer_oop.get_input_try py_float py_str w = (Raise (ValueError msg), w') ->
   bs_option_pricer_oop.get_input py_float py_str w
   = bs_option_pricer_oop.get_input py_float py_str (snd (print msg w'))).
Proof.
  split; intros H.
  - pose proof (get_input_try_progress _ _ _ _ _ H) as Hlen.
    unfold bs_option_pricer.get_input at 1.
    cbn [bs_option_pricer.get_input_loop]. rewrite H.
    apply get_input_loop_fuel; simpl; lia.
  - pose proof (oop_get_input_try_progress _ _ _ _ _ H) as Hlen.
    unfold bs_option_pricer_oop.get_input at 1.
    cbn [bs_option_pricer_oop.get_input_loop]. rewrite H.
    apply oop_get_input_loop_fuel; simpl; lia.
Qed.

Lemma get_input_restarts_witness :
  let py_str := fun q => Reading.float_mark (Q2R q) in
  let w := World ["c"; "abc"; "p"; "100"; "100"; "0.05"; "1"; "0.2"]%string [] in
  exists w' msg,
    bs_option_pricer.get_input_try Instances.decimal_float py_str w
    = (Raise (ValueError msg), w') /\
    bs_option_pricer_oop.get_input_try Instances.decimal_float py_str w
    = (Raise (ValueError msg), w') /\
    stdin w' = ["p"; "100"; "100"; "0.05"; "1"; "0.2"]%string /\
    bs_option_pricer.get_input Instances.decimal_float py_str w
    = bs_option_pricer.get_input Instances.decimal_float py_str (snd (print msg w')) /\
    bs_option_pricer_oop.get_input Instances.decimal_float py_str w
    = bs_option_pricer_oop.get_input Instances.decimal_float py_str (snd (print msg w')).
Proof.
  intros py_str w.
  set (w' := World ["p"; "100"; "100"; "0.05"; "1"; "0.2"]%string
               (["Option type - type 'c' or 'call' for call option, 'p' or 'put' for put option: ";
                 "Current stock price: "]%string)).
  assert (H : bs_option_pricer.get_input_try Instances.decimal_float py_str w
              = (Raise (ValueError "could not convert string to float: 'abc'"), w'))
    by (vm_compute; reflexivity).
  assert (H' : bs_option_pricer_oop.get_input_try Instances.decimal_float py_str w
               = (Raise (ValueError "could not convert string to float: 'abc'"), w'))
    by (vm_compute; reflexivity).
  destruct (get_input_restarts Instances.decimal_float py_str w w'
              "could not convert string to float: 'abc'") as [R1 R2].
  exists w', "could not convert string to float: 'abc'"%string.
  split; [exact H |]. split; [exact H' |]. split; [reflexivity |].
  split; [exact (R1 H) | exact (R2 H')].
Defined.

(** ** Spelling of the typed lines *)

Lemma lower_ascii_idempotent (c : ascii) : lower_ascii (lower_ascii c) = lower_ascii c.
Proof. destruct c as [[] [] [] [] [] [] [] []]; reflexivity. Qed.

Lemma str_lower_idempotent (s : string) : str_lower (str_lower s) = str_lower s.
Proof.
  induction s as [| c s IH]; simpl; [reflexivity |].
  rewrite lower_ascii_idempotent, IH. reflexivity.
Qed.

Lemma comma_to_point_idempotent (s : string) :
  str_replace "," "." (str_replace "," "." s) = str_replace "," "." s.
Proof.
  induction s as [| c s IH]; simpl; [reflexivity |].
  destruct (Ascii.eqb c ",") eqn:E; simpl.
  - rewrite IH. reflexivity.
  - rewrite E, IH. reflexivity.
Qed.

Ltac io_case py_float :=
  match goal with
  | |- context [if negb ?b then _ else _] => destruct b
  | |- context [match py_float ?s with Ok _ => _ | Raise _ => _ end] =>
      destruct (py_float s)
  | |- context [if str_contains ?c ?s then _ else _] => destruct (str_contains c s)
  end.

(** X14.  [get_input] of both files: an attempt returns or raises the same
    and prints the same whether the option type is typed in upper or lower
    case and whether the five numbers are typed with a decimal comma or a
    decimal point. *)
Theorem spelling_does_not_matter (py_float : string -> result Q) (py_str : Q -> string)
    (kind_line a b c d e : string) (rest out : list string) :
  let comma := str_replace "," "." in
  let typed := World (kind_line :: a :: b :: c :: d :: e :: rest) out in
  let normal :=
    World (str_lower kind_line :: comma a :: comma b :: comma c :: comma d :: comma e
           :: rest) out in
  let same {A : Type} (x y : result A * world) :=
    fst x = fst y /\ stdout (snd x) = stdout (snd y) in
  same (bs_option_pricer.get_input_try py_float py_str typed)
       (bs_option_pricer.get_input_try py_float py_str normal) /\
  same (bs_option_pricer_oop.get_input_try py_float py_str typed)
       (bs_option_pricer_oop.get_input_try py_float py_str normal).
Proof.
  cbv zeta. split.
  - unfold bs_option_pricer.get_input_try, io_bind, input, io_lift, io_ret, io_raise, write.
    repeat (io_step; rewrite ?str_lower_idempotent, ?comma_to_point_idempotent;
            try (split; reflexivity); io_case py_float).
  - unfold bs_option_pricer_oop.get_input_try, io_bind, input, io_lift, io_ret, io_raise,
      write.
    repeat (io_step; rewrite ?str_lower_idempotent, ?comma_to_point_idempotent;
            try (split; reflexivity); io_case py_float).
Qed.

(** ** The operations wherever the arithmetic goes through *)

Lemma d1_expr_ok (S K r t sigma d : R) :
  bs_option_pricer.d1_expr S K r t sigma = Ok d ->
  0 < S / K /\ 0 < t /\ sigma <> 0.
Proof.
  unfold bs_option_pricer.d1_expr, truediv at 1.
  destruct (Req_dec_T K 0) as [HK | HK]; [discriminate |]. cbn [bind].
  unfold math_log. destruct (Rle_dec (S / K) 0) as [Hq | Hq]; [discriminate |].
  cbn [bind]. unfold math_sqrt. destruct (Rlt_dec t 0) as [Ht | Ht]; [discriminate |].
  cbn [bind]. unfold truediv.
  destruct (Req_dec_T (sigma * sqrt t) 0) as [Hz | Hz]; [discriminate |].
  intros _. split; [lra |]. split.
  - destruct (Req_dec_T t 0) as [Ht0 | Ht0]; [| lra].
    exfalso. apply Hz. rewrite Ht0, sqrt_0. ring.
  - intros Hs. apply Hz. rewrite Hs. ring.
Qed.

Section Computable.

Variable norm_cdf : R -> R.
Variable norm_pdf : R -> R.
Variables S K r t sigma : R.
Hypothesis quotient_pos : 0 < S / K.
Hypothesis t_pos : 0 < t.
Hypothesis sigma_nonzero : sigma <> 0.

Let d1 := (ln (S / K) + (r + sigma ^ 2 / 2) * t) / (sigma * sqrt t).
Let d2 := d1 - sigma * sqrt t.

Lemma computable_facts : K <> 0 /\ S <> 0 /\ 0 < sqrt t /\ sigma * sqrt t <> 0 /\
  S * sigma * sqrt t <> 0.
Proof.
  assert (HK : K <> 0).
  { intros E. rewrite E in quotient_pos. unfold Rdiv in quotient_pos.
    rewrite Rinv_0, Rmult_0_r in quotient_pos. lra. }
  assert (HS : S <> 0).
  { intros E. rewrite E in quotient_pos. unfold Rdiv in quotient_pos.
    rewrite Rmult_0_l in quotient_pos. lra. }
  assert (Hst : 0 < sqrt t) by (apply sqrt_lt_R0; exact t_pos).
  repeat split; try assumption.
  - apply Rmult_integral_contrapositive_currified; [exact sigma_nonzero | lra].
  - repeat apply Rmult_integral_contrapositive_currified;
      [exact HS | exact sigma_nonzero | lra].
Qed.

Lemma d1_expr_computable : bs_option_pricer.d1_expr S K r t sigma = Ok d1.
Proof.
  destruct computable_facts as (HK & HS & Hst & Hd & _).
  unfold bs_option_pricer.d1_expr.
  rewrite truediv_ok by exact HK. cbn [bind].
  rewrite math_log_ok by exact quotient_pos. cbn [bind].
  rewrite math_sqrt_ok by lra. cbn [bind].
  apply truediv_ok. exact Hd.
Qed.

Lemma operations_computable (ot : string) :
  bs_option_pricer.bsmodel norm_cdf ot S K r t sigma
  = (if str_in ot ["c"; "call"]%string then
       Ok (VFloat (norm_cdf d1 * S - norm_cdf d2 * K * exp (- r * t)))
     else if str_in ot ["p"; "put"]%string then
       Ok (VFloat (exp (- r * t) * K * norm_cdf (- d2) - S * norm_cdf (- d1)))
     else Ok VNone) /\
  bs_option_pricer.delta norm_cdf ot S K r t sigma
  = (if str_in ot ["c"; "call"]%string then Ok (VFloat (norm_cdf d1))
     else if str_in ot ["p"; "put"]%string then Ok (VFloat (- norm_cdf (- d1)))
     else Ok VNone) /\
  bs_option_pricer.gamma norm_pdf S K r t sigma
  = Ok (norm_pdf d1 / (S * sigma * sqrt t)) /\
  bs_option_pricer.theta norm_cdf norm_pdf ot S K r t sigma
  = (if str_in ot ["c"; "call"]%string then
       Ok (VFloat ((- S * norm_pdf d1 * sigma / (2 * sqrt t)
                    - r * K * exp (- r * t) * norm_cdf d2) / 365))
     else if str_in ot ["p"; "put"]%string then
       Ok (VFloat ((- S * norm_pdf d1 * sigma / (2 * sqrt t)
                    + r * K * exp (- r * t) * norm_cdf (- d2)) / 365))
     else Ok VNone) /\
  bs_option_pricer.vega norm_pdf S K r t sigma = Ok (S * sqrt t * norm_pdf d1 / 100) /\
  bs_option_pricer.rho norm_cdf ot S K r t sigma
  = (if str_in ot ["c"; "call"]%string then
       Ok (VFloat (K * t * exp (- r * t) * norm_cdf d2 / 100))
     else if str_in ot ["p"; "put"]%string then
       Ok (VFloat (- K * t * exp (- r * t) * norm_cdf (- d2) / 100))
     else Ok VNone).
Proof.
  destruct computable_facts as (HK & HS & Hst & Hd & Hg).
  unfold bs_option_pricer.bsmodel, bs_option_pricer.delta, bs_option_pricer.gamma,
    bs_option_pricer.theta, bs_option_pricer.vega, bs_option_pricer.rho,
    bs_option_pricer.d2_expr.
  rewrite d1_expr_computable. cbn [bind].
  rewrite math_sqrt_ok by lra. cbn [bind].
  rewrite (truediv_ok _ _ Hg). cbn [bind].
  fold d2.
  repeat split; try reflexivity.
  destruct (str_in ot ["c"; "call"]%string);
    [| destruct (str_in ot ["p"; "put"]%string)];
    rewrite ?math_sqrt_ok by lra; cbn [bind]; rewrite ?truediv_ok by lra; reflexivity.
Qed.

Lemma calculate_d1_d2_computable (ot : string) :
  bs_option_pricer_oop.calculate_d1_d2
    (bs_option_pricer_oop.Build_BlackScholesModel ot S K r t sigma) = Ok (d1, d2).
Proof.
  destruct computable_facts as (HK & HS & Hst & Hd & _).
  unfold bs_option_pricer_oop.calculate_d1_d2.
  cbn [bs_option_pricer_oop.S bs_option_pricer_oop.K bs_option_pricer_oop.r
       bs_option_pricer_oop.t bs_option_pricer_oop.sigma].
  rewrite truediv_ok by exact HK. cbn [bind].
  rewrite math_log_ok by exact quotient_pos. cbn [bind].
  rewrite math_sqrt_ok by lra. cbn [bind].
  rewrite truediv_ok by exact Hd. reflexivity.
Qed.

Lemma metrics_computable (ot : string) :
  str_in ot ["c"; "call"; "p"; "put"]%string = true ->
  bs_option_pricer_oop.calculate_option_metrics norm_cdf norm_pdf
    (bs_option_pricer_oop.Build_BlackScholesModel ot S K r t sigma)
  = Ok (norm_cdf d1 * S - norm_cdf d2 * K * exp (- r * t),
        K * exp (- r * t) * norm_cdf (- d2) - S * norm_cdf (- d1),
        (if str_in ot ["c"; "call"]%string then VFloat (norm_cdf d1)
         else VFloat (- norm_cdf (- d1))),
        norm_pdf d1 / (S * sigma * sqrt t),
        (if str_in ot ["c"; "call"]%string
         then (- S * norm_pdf d1 * sigma / (2 * sqrt t)
               - r * K * exp (- r * t) * norm_cdf d2) / 365
         else (- S * norm_pdf d1 * sigma / (2 * sqrt t)
               + r * K * exp (- r * t) * norm_cdf (- d2)) / 365),
        S * sqrt t * norm_pdf d1 / 100,
        (if str_in ot ["c"; "call"]%string
         then VFloat (K * t * exp (- r * t) * norm_cdf d2 / 100)
         else VFloat (- K * t * exp (- r * t) * norm_cdf (- d2) / 100))).
Proof.
  intros Hkind.
  destruct computable_facts as (HK & HS & Hst & Hd & Hg).
  assert (Hp : str_in ot ["c"; "call"]%string = false ->
               str_in ot ["p"; "put"]%string = true).
  { unfold str_in in *. simpl in *.
    destruct (ot =? "c")%string, (ot =? "call")%string, (ot =? "p")%string,
      (ot =? "put")%string; simpl in *; try discriminate; auto. }
  unfold bs_option_pricer_oop.calculate_option_metrics.
  rewrite calculate_d1_d2_computable. cbn [bind].
  unfold bs_option_pricer_oop.calculate_N_values,
    bs_option_pricer_oop.calculate_gamma, bs_option_pricer_oop.calculate_theta,
    bs_option_pricer_oop.calculate_vega, bs_option_pricer_oop.calculate_delta,
    bs_option_pricer_oop.calculate_rho, bs_option_pricer_oop.calculate_call_price,
    bs_option_pricer_oop.calculate_put_price.
  cbn [bs_option_pricer_oop.option_type bs_option_pricer_oop.S bs_option_pricer_oop.K
       bs_option_pricer_oop.r bs_option_pricer_oop.t bs_option_pricer_oop.sigma].
  rewrite math_sqrt_ok by lra. cbn [bind].
  rewrite (truediv_ok _ _ Hg). cbn [bind].
  destruct (str_in ot ["c"; "call"]%string).
  - rewrite truediv_ok by lra. reflexivity.
  - rewrite (Hp eq_refl). rewrite truediv_ok by lra. reflexivity.
Qed.

End Computable.

(** ** The two programs *)

Lemma calculate_d1_d2_raises (ot : string) (S K r t sigma : R) (e : exn) :
  bs_option_pricer.d1_expr S K r t sigma = Raise e ->
  bs_option_pricer_oop.calculate_d1_d2
    (bs_option_pricer_oop.Build_BlackScholesModel ot S K r t sigma) = Raise e.
Proof.
  unfold bs_option_pricer.d1_expr, bs_option_pricer_oop.calculate_d1_d2.
  cbn [bs_option_pricer_oop.S bs_option_pricer_oop.K bs_option_pricer_oop.r
       bs_option_pricer_oop.t bs_option_pricer_oop.sigma].
  destruct (truediv S K) as [q |]; cbn [bind]; [| intros H; inversion H; reflexivity].
  destruct (math_log q) as [l |]; cbn [bind]; [| intros H; inversion H; reflexivity].
  destruct (math_sqrt t) as [st |]; cbn [bind]; [| intros H; inversion H; reflexivity].
  destruct (truediv (l + (r + sigma ^ 2 / 2) * t) (sigma * st)) as [d |]; cbn [bind];
    [discriminate | intros H; inversion H; reflexivity].
Qed.

Lemma main_after_same (norm_cdf norm_pdf : R -> R) (str_float : R -> string)
    (ot : string) (S K r t sigma : Q) (w : world) :
  str_in ot ["c"; "call"; "p"; "put"]%string = true ->
  bs_option_pricer.main_after norm_cdf norm_pdf str_float ot S K r t sigma w
  = bs_option_pricer_oop.main_after norm_cdf norm_pdf str_float ot S K r t sigma w.
Proof.
  intros Hkind.
  assert (Hp : str_in ot ["c"; "call"]%string = false ->
               str_in ot ["p"; "put"]%string = true).
  { unfold str_in in *. simpl in *.
    destruct (ot =? "c")%string, (ot =? "call")%string, (ot =? "p")%string,
      (ot =? "put")%string; simpl in *; try discriminate; auto. }
  unfold bs_option_pricer.main_after, bs_option_pricer_oop.main_after.
  destruct (bs_option_pricer.d1_expr (Q2R S) (Q2R K) (Q2R r) (Q2R t) (Q2R sigma))
    as [d | e] eqn:E.
  - apply d1_expr_ok in E as (Hq & Ht & Hs).
    destruct (operations_computable norm_cdf norm_pdf _ _ (Q2R r) _ _ Hq Ht Hs ot)
      as (B & D & G & T & V & Rh).
    pose proof (metrics_computable norm_cdf norm_pdf _ _ (Q2R r) _ _ Hq Ht Hs ot Hkind)
      as M.
    rewrite (Rmult_comm (exp (- Q2R r * Q2R t)) (Q2R K)) in B.
    unfold io_bind, io_lift. rewrite B, D, G, T, V, Rh, M.
    destruct (str_in ot ["c"; "call"]%string).
    + reflexivity.
    + rewrite (Hp eq_refl). reflexivity.
  - unfold io_bind, io_lift.
    unfold bs_option_pricer_oop.calculate_option_metrics.
    rewrite (calculate_d1_d2_raises ot _ _ _ _ _ _ E).
    unfold bs_option_pricer.bsmodel. rewrite E. reflexivity.
Qed.

(** X15.  [main] of both files, after [get_input]: for every option type
    of the enumeration and all five numbers, valid or not, the statements
    of [main] in [bs_option_pricer.py] and in [bs_option_pricer_oop.py]
    print the same lines and end the same way, with the same exception when
    the arithmetic fails. *)
Theorem main_bodies_agree (norm_cdf norm_pdf : R -> R) (str_float : R -> string)
    (ot : string) (S K r t sigma : Q) (w : world) :
  str_in ot ["c"; "call"; "p"; "put"]%string = true ->
  bs_option_pricer.main_after norm_cdf norm_pdf str_float ot S K r t sigma w
  = bs_option_pricer_oop.main_after norm_cdf norm_pdf str_float ot S K r t sigma w.
Proof. apply main_after_same. Qed.

Lemma main_bodies_agree_witness :
  str_in "put" ["c"; "call"; "p"; "put"]%string = true /\
  bs_option_pricer.main_after Instances.std_normal_cdf Instances.gauss_pdf
    Reading.float_mark "put" (100 # 1) (0 # 1) (5 # 100) (1 # 1) (2 # 10) (World [] [])
  = bs_option_pricer_oop.main_after Instances.std_normal_cdf Instances.gauss_pdf
      Reading.float_mark "put" (100 # 1) (0 # 1) (5 # 100) (1 # 1) (2 # 10) (World [] []).
Proof.
  split; [reflexivity |].
  exact (main_bodies_agree Instances.std_normal_cdf Instances.gauss_pdf Reading.float_mark
           "put" (100 # 1) (0 # 1) (5 # 100) (1 # 1) (2 # 10) (World [] []) eq_refl).
Defined.

(** *** Input without a percent sign *)

Lemma str_contains_percent_comma (s : string) :
  str_contains "%" (str_replace "," "." s) = str_contains "%" s.
Proof.
  induction s as [| c s IH]; simpl; [reflexivity |].
  destruct (Ascii.eqb c ",") eqn:E; simpl.
  - apply Ascii.eqb_eq in E. subst c. simpl. exact IH.
  - rewrite IH. reflexivity.
Qed.

Lemma reads_ret {A : Type} (a : A) : Reading.reads (io_ret a).
Proof. intros w res w' H. inversion H. exists []. reflexivity. Qed.

Lemma reads_raise {A : Type} (e : exn) : Reading.reads (@io_raise A e).
Proof. intros w res w' H. inversion H. exists []. reflexivity. Qed.

Lemma reads_lift {A : Type} (c : result A) : Reading.reads (io_lift c).
Proof. intros w res w' H. inversion H. exists []. reflexivity. Qed.

Lemma reads_input (prompt : string) : Reading.reads (input prompt).
Proof.
  intros [inp out] res w' H. unfold input in H. simpl in H.
  destruct inp as [| line rest]; inversion H; simpl.
  - exists []. reflexivity.
  - exists [line]. reflexivity.
Qed.

Lemma reads_bind {A B : Type} (c : io A) (k : A -> io B) :
  Reading.reads c -> (forall a, Reading.reads (k a)) -> Reading.reads (io_bind c k).
Proof.
  intros Hc Hk w res w' H. unfold io_bind in H.
  destruct (c w) as [[a | e] w1] eqn:E.
  - apply Hc in E as [t1 E1]. apply Hk in H as [t2 E2].
    exists (t1 ++ t2). rewrite E1, E2, app_assoc. reflexivity.
  - inversion H; subst. apply Hc in E. exact E.
Qed.

Lemma reads_if {A : Type} (b : bool) (c1 c2 : io A) :
  Reading.reads c1 -> Reading.reads c2 -> Reading.reads (if b then c1 else c2).
Proof. destruct b; auto. Qed.

Ltac reads_tac :=
  repeat (first [ apply reads_bind; [| intros ? ]
                | apply reads_if
                | apply reads_ret | apply reads_raise | apply reads_lift
                | apply reads_input ]).

Lemma get_input_try_reads (py_float : string -> result Q) (py_str : Q -> string) :
  Reading.reads (bs_option_pricer.get_input_try py_float py_str).
Proof. unfold bs_option_pricer.get_input_try. reads_tac. Qed.

Lemma oop_get_input_try_reads (py_float : string -> result Q) (py_str : Q -> string) :
  Reading.reads (bs_option_pricer_oop.get_input_try py_float py_str).
Proof. unfold bs_option_pricer_oop.get_input_try. reads_tac. Qed.

Section NoPercent.

Variable py_float : string -> result Q.
Variable py_str : Q -> string.
Hypothesis str_no_percent : forall q, str_contains "%" (py_str q) = false.

Let plain (line : string) : Prop := str_contains "%" line = false.

Lemma get_input_try_agree (w : world) :
  Forall plain (stdin w) ->
  bs_option_pricer.get_input_try py_float py_str w
  = bs_option_pricer_oop.get_input_try py_float py_str w.
Proof.
  destruct w as [inp out]. cbn [stdin]. intros Hplain.
  unfold bs_option_pricer.get_input_try, bs_option_pricer_oop.get_input_try,
    io_bind, input, io_lift, io_ret, io_raise, write.
  destruct inp as [| l1 [| l2 [| l3 [| l4 [| l5 [| l6 rest]]]]]];
    repeat match goal with
           | H : Forall plain (_ :: _) |- _ => inversion H; subst; clear H
           end;
    unfold plain in *;
    repeat (io_step;
            rewrite ?str_contains_percent_comma, ?str_no_percent;
            repeat match goal with
                   | H : str_contains "%" ?l = false
                     |- context [str_contains "%" ?l] => rewrite H
                   | H : py_float ?s = _ |- context [py_float ?s] => rewrite H
                   end;
            try reflexivity;
            try match goal with
                | |- context [if negb ?b then _ else _] => destruct b
                | |- context [match py_float ?s with Ok _ => _ | Raise _ => _ end] =>
                    destruct (py_float s) eqn:?
                end).
Qed.

Lemma get_input_loop_agree (fuel : nat) :
  forall w, Forall plain (stdin w) ->
  bs_option_pricer.get_input_loop py_float py_str fuel w
  = bs_option_pricer_oop.get_input_loop py_float py_str fuel w.
Proof.
  induction fuel as [| fuel IH]; intros w Hplain; [reflexivity |].
  cbn [bs_option_pricer.get_input_loop bs_option_pricer_oop.get_input_loop].
  rewrite <- (get_input_try_agree w Hplain).
  destruct (bs_option_pricer.get_input_try py_float py_str w) as [[v | e] w1] eqn:E;
    [reflexivity |].
  destruct e; try reflexivity.
  apply IH. apply get_input_try_reads in E as [taken E].
  cbn [print snd write stdin]. rewrite E in Hplain.
  apply Forall_app in Hplain. apply Hplain.
Qed.

Lemma get_input_agree (w : world) :
  Forall plain (stdin w) ->
  bs_option_pricer.get_input py_float py_str w
  = bs_option_pricer_oop.get_input py_float py_str w.
Proof. intros H. apply get_input_loop_agree. exact H. Qed.

End NoPercent.


(** X16.  The two programs: when no typed line contains a percent sign
    (and [str] of a float writes none), [main] of [bs_option_pricer.py] and
    [main] of [bs_option_pricer_oop.py] read the same lines, print the same
    text and end the same way, whatever is typed. *)
Theorem programs_agree (norm_cdf norm_pdf : R -> R) (py_float : string -> result Q)
    (str_float : R -> string) (w : world) :
  (forall x, str_contains "%" (str_float x) = false) ->
  Forall (fun line => str_contains "%" line = false) (stdin w) ->
  bs_option_pricer.main norm_cdf norm_pdf py_float str_float w
  = bs_option_pricer_oop.main norm_cdf norm_pdf py_float str_float w.
Proof.
  intros Hstr Hplain. unfold bs_option_pricer.main, bs_option_pricer_oop.main.
  rewrite (get_input_agree py_float (fun q => str_float (Q2R q))
             (fun q => Hstr (Q2R q)) w Hplain).
  destruct (bs_option_pricer_oop.get_input py_float (fun q => str_float (Q2R q)) w)
    as [[[[[[[[ot vS] vK] vr] vt] vsigma] | e] w1] |] eqn:E; try reflexivity.
  f_equal. apply main_after_same.
  apply oop_get_input_loop_returns in E as (w0 & H0 & _).
  apply oop_get_input_try_ok in H0 as (l1 & l2 & l3 & l4 & l5 & l6 & t0 & _ & _ & Hk & _).
  exact Hk.
Qed.

Lemma programs_agree_witness :
  let w := World ["c"; "100"; "100"; "0,05"; "30"; "0.2"]%string [] in
  (forall x, str_contains "%" (Reading.float_mark x) = false) /\
  Forall (fun line => str_contains "%" line = false) (stdin w) /\
  bs_option_pricer.main Instances.std_normal_cdf Instances.gauss_pdf
    Instances.decimal_float Reading.float_mark w
  = bs_option_pricer_oop.main Instances.std_normal_cdf Instances.gauss_pdf
      Instances.decimal_float Reading.float_mark w.
Proof.
  intros w.
  assert (Hstr : forall x, str_contains "%" (Reading.float_mark x) = false)
    by (intros x; reflexivity).
  assert (Hplain : Forall (fun line => str_contains "%" line = false) (stdin w))
    by (repeat constructor).
  split; [exact Hstr | split; [exact Hplain |]].
  exact (programs_agree Instances.std_normal_cdf Instances.gauss_pdf
           Instances.decimal_float Reading.float_mark w Hstr Hplain).
Defined.



(** X18.  [main] of both files catches nothing: when [get_input] has
    returned numbers on which the first arithmetic of the pricing functions
    fails, [main] ends with that exception ([ZeroDivisionError] or the
    "math domain error" [ValueError]) and prints none of the six result
    lines. *)
Theorem main_lets_arithmetic_errors_out (norm_cdf norm_pdf : R -> R)
    (py_float : string -> result Q) (str_float : R -> string) (w w1 : world)
    (ot : string) (vS vK vr vt vsigma : Q) (e : exn) :
  bs_option_pricer.d1_expr (Q2R vS) (Q2R vK) (Q2R vr) (Q2R vt) (Q2R vsigma) = Raise e ->
  (bs_option_pricer.get_input py_float (fun q => str_float (Q2R q)) w
   = Some (Ok (ot, vS, vK, vr, vt, vsigma), w1) ->
   bs_option_pricer.main norm_cdf norm_pdf py_float str_float w = Some (Raise e, w1)) /\
  (bs_option_pricer_oop.get_input py_float (fun q => str_float (Q2R q)) w
   = Some (Ok (ot, vS, vK, vr, vt, vsigma), w1) ->
   bs_option_pricer_oop.main norm_cdf norm_pdf py_float str_float w
   = Some (Raise e, w1)).
Proof.
  intros E. split; intros Hget.
  - unfold bs_option_pricer.main. rewrite Hget.
    unfold bs_option_pricer.main_after, io_bind, io_lift, bs_option_pricer.bsmodel.
    rewrite E. reflexivity.
  - unfold bs_option_pricer_oop.main. rewrite Hget.
    unfold bs_option_pricer_oop.main_after, io_bind, io_lift,
      bs_option_pricer_oop.calculate_option_metrics.
    rewrite (calculate_d1_d2_raises ot _ _ _ _ _ _ E). reflexivity.
Qed.

Lemma main_lets_arithmetic_errors_out_witness :
  let w := World ["p"; "0"; "100"; "0.05"; "1"; "0.2"]%string [] in
  let py_str := fun q => Reading.float_mark (Q2R q) in
  exists w1,
    bs_option_pricer.d1_expr (Q2R (0 # 1)) (Q2R (100 # 1)) (Q2R (5 # 100)) (Q2R (1 # 1))
      (Q2R (2 # 10)) = Raise math_domain_error /\
    bs_option_pricer.get_input Instances.decimal_float py_str w
    = Some (Ok ("p"%string, 0 # 1, 100 # 1, 5 # 100, 1 # 1, 2 # 10), w1) /\
    bs_option_pricer_oop.get_input Instances.decimal_float py_str w
    = Some (Ok ("p"%string, 0 # 1, 100 # 1, 5 # 100, 1 # 1, 2 # 10), w1) /\
    bs_option_pricer.main Instances.std_normal_cdf Instances.gauss_pdf
      Instances.decimal_float Reading.float_mark w = Some (Raise math_domain_error, w1) /\
    bs_option_pricer_oop.main Instances.std_normal_cdf Instances.gauss_pdf
      Instances.decimal_float Reading.float_mark w = Some (Raise math_domain_error, w1).
Proof.
  intros w py_str.
  assert (E : bs_option_pricer.d1_expr (Q2R (0 # 1)) (Q2R (100 # 1)) (Q2R (5 # 100))
                (Q2R (1 # 1)) (Q2R (2 # 10)) = Raise math_domain_error).
  { apply d1_expr_log_domain; unfold Q2R; simpl; lra. }
  set (w1 := World []
               (["Option type - type 'c' or 'call' for call option, 'p' or 'put' for put option: ";
                 "Current stock price: "; "Strike price: ";
                 "Risk-free interest rate: ";
                 "Time to maturity (in years): ";
                 "Volatility of returns of an underlying asset: "]%string)).
  assert (H1 : bs_option_pricer.get_input Instances.decimal_float py_str w
               = Some (Ok ("p"%string, 0 # 1, 100 # 1, 5 # 100, 1 # 1, 2 # 10), w1))
    by (vm_compute; reflexivity).
  assert (H2 : bs_option_pricer_oop.get_input Instances.decimal_float py_str w
               = Some (Ok ("p"%string, 0 # 1, 100 # 1, 5 # 100, 1 # 1, 2 # 10), w1))
    by (lazy; reflexivity).
  destruct (main_lets_arithmetic_errors_out Instances.std_normal_cdf Instances.gauss_pdf
              Instances.decimal_float Reading.float_mark w w1 "p"
              (0 # 1) (100 # 1) (5 # 100) (1 # 1) (2 # 10) math_domain_error E)
    as [M1 M2].
  exists w1. split; [exact E |]. split; [exact H1 |]. split; [exact H2 |].
  split; [exact (M1 H1) | exact (M2 H2)].
Defined.

(** ** The maturity that reaches the pricing functions *)

(** X19.  [get_input] of both files: the maturity an attempt returns is the
    typed number when that is at most 1 and the typed number divided by 365
    otherwise.  So a maturity above one year cannot be entered in years (2
    comes back as 2/365), and every typed number up to 365 gives a maturity
    of at most 1. *)
Theorem returned_maturity (py_float : string -> result Q) (py_str : Q -> string)
    (w w' : world) (ot : string) (vS vK vr vt vsigma : Q) :
  bs_option_pricer.get_input_try py_float py_str w
  = (Ok (ot, vS, vK, vr, vt, vsigma), w') \/
  bs_option_pricer_oop.get_input_try py_float py_str w
  = (Ok (ot, vS, vK, vr, vt, vsigma), w') ->
  exists line t0,
    nth_error (stdin w) 4 = Some line /\
    py_float (str_replace "," "." line) = Ok t0 /\
    (t0 <= 1 -> vt = t0)%Q /\
    (1 < t0 -> vt = t0 / 365 /\ vt < t0)%Q /\
    (t0 <= 365 -> vt <= 1)%Q.
Proof.
  intros H.
  assert (exists line t0,
             nth_error (stdin w) 4 = Some line /\
             py_float (str_replace "," "." line) = Ok t0 /\
             vt = (if Qle_bool t0 1 then t0 else t0 / 365)%Q)
    as (line & t0 & Hl & Hf & Hvt).
  { destruct H as [H | H].
    - apply get_input_try_ok in H
        as (l1 & l2 & l3 & l4 & l5 & l6 & t0 & Hin & _ & _ & _ & _ & _ & Hf & Hvt & _).
      exists l5, t0. rewrite Hin. repeat split; assumption.
    - apply oop_get_input_try_ok in H
        as (l1 & l2 & l3 & l4 & l5 & l6 & t0 & Hin & _ & _ & _ & _ & _ & Hf & Hvt & _).
      exists l5, t0. rewrite Hin. repeat split; assumption. }
  exists line, t0. split; [exact Hl |]. split; [exact Hf |].
  destruct (Qle_bool t0 1) eqn:Hb.
  - apply Qle_bool_iff in Hb. subst vt. split; [reflexivity |]. split.
    + intros Hgt. exfalso. apply (Qlt_not_le _ _ Hgt). exact Hb.
    + intros _. exact Hb.
  - assert (Hgt : (1 < t0)%Q).
    { apply Qnot_le_lt. intros Hle. apply Qle_bool_iff in Hle. congruence. }
    subst vt. split; [| split].
    + intros Hle. exfalso. apply (Qlt_not_le _ _ Hgt). exact Hle.
    + intros _. split; [reflexivity |].
      apply Qlt_shift_div_r; [reflexivity |].
      assert (0 < t0)%Q by (apply Qlt_trans with 1%Q; [reflexivity | exact Hgt]).
      rewrite <- (Qmult_1_r t0) at 1. apply Qmult_lt_l; [assumption | reflexivity].
    + intros Hle. apply Qle_shift_div_r; [reflexivity |].
      rewrite Qmult_1_l. exact Hle.
Qed.

Lemma returned_maturity_witness :
  let w := World ["Call"; "100"; "95,5"; "5%"; "30"; "0.2"; "next"]%string [] in
  let py_str := fun q => Reading.float_mark (Q2R q) in
  exists w' line t0,
    bs_option_pricer.get_input_try Instances.decimal_float py_str w
    = (Ok ("call"%string, 100 # 1, 955 # 10, 5 # 100, 30 # 365, 2 # 10), w') /\
    nth_error (stdin w) 4 = Some line /\
    Instances.decimal_float (str_replace "," "." line) = Ok t0 /\
    (t0 <= 1 -> (30 # 365) = t0)%Q /\
    (1 < t0 -> (30 # 365) = t0 / 365 /\ (30 # 365) < t0)%Q /\
    (t0 <= 365 -> (30 # 365) <= 1)%Q.
Proof.
  intros w py_str.
  set (w' := World ["next"%string]
               (["Option type - type 'c' or 'call' for call option, 'p' or 'put' for put option: ";
                 "Current stock price: "; "Strike price: ";
                 "Risk-free interest rate: ";
                 "Time to maturity (in years): ";
                 "Volatility of returns of an underlying asset: "]%string)).
  assert (H : bs_option_pricer.get_input_try Instances.decimal_float py_str w
              = (Ok ("call"%string, 100 # 1, 955 # 10, 5 # 100, 30 # 365, 2 # 10), w'))
    by (vm_compute; reflexivity).
  destruct (returned_maturity Instances.decimal_float py_str w w' _ _ _ _ _ _
              (or_introl H)) as (line & t0 & Hrest).
  exists w', line, t0. split; [exact H | exact Hrest].
Defined.
